(** * show_azure: aggregation of benchmark results into a markdown table

    A shallow embedding of [scripts/show_azure.py] and the properties the
    specification states about it.

    Conventions of the embedding.
    - Python floats are IEEE 754 binary64 numbers: Rocq's primitive [float].
    - A Python [dict] with string keys is a [gmap string _]; the configuration,
      whose iteration order matters, is an association list.
    - A raised exception is the [Raise] outcome of the [result] monad.
    - The builtins [str.strip], [float] (of a string) and [str] (of a float),
      and the file system that is read, are variables of the section
      [Script]; everything else is defined from the source.
    - [logging] calls append records to a log that is passed along. *)

From Stdlib Require Import ZArith Ascii PrimFloat Uint63 DecimalString.
From stdpp Require Import gmap strings list fin_maps.

(** ** Python values and exceptions *)

(** The values a row or an experiment record holds: JSON scalars read from
    the configuration, and the numbers the script computes. *)
Inductive pyval :=
  | PyNone
  | PyBool (b : bool)
  | PyInt (z : Z)
  | PyFloat (f : float)
  | PyStr (s : string).

Inductive exn :=
  | KeyError (key : string)
  | TypeError
  | ValueError (msg : string).

Inductive result (A : Type) :=
  | Ok (a : A)
  | Raise (e : exn).
Arguments Ok {A} a.
Arguments Raise {A} e.

#[global] Instance result_ret : MRet result := λ A a, Ok a.
#[global] Instance result_bind : MBind result := λ A B f r,
  match r with
  | Ok a => f a
  | Raise e => Raise e
  end.

(** A future of [concurrent.futures]: empty until its job has run, then
    the value the job returned or the exception it raised. *)
Abbreviation future B := (option (result B)).

Inductive level := INFO | WARNING | ERROR.

Definition log_record : Type := level * string.

(** [d[key]] on a dict. *)
Definition getitem {V} (d : gmap string V) (key : string) : result V :=
  match d !! key with
  | Some v => Ok v
  | None => Raise (KeyError key)
  end.

(** [d.get(key, dflt)]. *)
Definition dict_get {V} (d : gmap string V) (key : string) (dflt : V) : V :=
  default dflt (d !! key).

(** [v == s] for a string literal [s]: only an equal string is equal to it. *)
Definition py_eq_str (v : pyval) (s : string) : bool :=
  match v with
  | PyStr t => bool_decide (t = s)
  | _ => false
  end.

(** ** os.path.join (posixpath) *)

Definition sep : ascii := "/"%char.

Definition startswith_sep (s : string) : bool :=
  match s with
  | String c _ => bool_decide (c = sep)
  | EmptyString => false
  end.

Fixpoint endswith_sep (s : string) : bool :=
  match s with
  | EmptyString => false
  | String c EmptyString => bool_decide (c = sep)
  | String _ rest => endswith_sep rest
  end.

(** One turn of the loop of [posixpath.join]: an absolute component
    replaces the path built so far. *)
Definition join_step (path b : string) : string :=
  if startswith_sep b then b
  else if bool_decide (path = "") || endswith_sep path then path +:+ b
  else path +:+ "/" +:+ b.

Definition os_path_join (a : string) (p : list string) : string :=
  fold_left join_step p a.

(** [os.path.join] raises [TypeError] on a component that is not a string. *)
Definition as_path (v : pyval) : result string :=
  match v with
  | PyStr s => Ok s
  | _ => Raise TypeError
  end.

(** ** Floats *)

(** [sum(l)]: the additions from left to right, starting from [0]. *)
Definition py_sum (l : list float) : float :=
  fold_left PrimFloat.add l 0%float.

(** The conversion of [len(l)], a machine-size integer, in [x / len(l)]. *)
Definition float_of_len (n : nat) : float :=
  PrimFloat.of_uint63 (Uint63.of_Z (Z.of_nat n)).

(** ** The file system that is read *)

Record filesystem := {
  isdir : string → bool;
  listdir : string → list string;
  isfile : string → bool;
  (** the text of a file; [None] when its bytes do not decode, where
      [f.read()] raises [UnicodeDecodeError], a [ValueError] *)
  read : string → option string
}.

Definition domains : list string :=
  ["chrome"; "libreoffice_calc"; "libreoffice_writer";
   "vlc"; "vs_code"; "settings"; "windows_calc";
   "clock"; "msedge"; "file_explorer"; "microsoft_paint"; "notepad"].

Definition required_keys : list string :=
  ["exp_name"; "a11y_backend"; "som_origin"; "model_name"].

Abbreviation exp_config := (gmap string pyval).

Definition newline : string := String "010"%char EmptyString.

Section Script.

(** [str.strip()], [float(s)] ([None]: [ValueError]) and [str(x)] of a
    float, as the interpreter provides them. *)
Variable py_strip : string → string.
Variable py_float : string → option float.
Variable py_str_float : float → string.

Variable fs : filesystem.

(** *** validate_config *)

Definition missing_message (key exp_name : string) : string :=
  "Missing '" +:+ key +:+ "' in experiment '" +:+ exp_name +:+ "'".

Fixpoint check_keys (exp_name : string) (exp_details : exp_config)
    (keys : list string) : result unit :=
  match keys with
  | [] => Ok tt
  | key :: keys' =>
      if bool_decide (exp_details !! key = None)
      then Raise (ValueError (missing_message key exp_name))
      else check_keys exp_name exp_details keys'
  end.

Fixpoint validate_config (config : list (string * exp_config)) : result unit :=
  match config with
  | [] => Ok tt
  | (exp_name, exp_details) :: config' =>
      check_keys exp_name exp_details required_keys ≫= λ _,
      validate_config config'
  end.

(** *** process_experiment *)

Definition task_state : Type := list float * nat * list log_record.

(** [float(f.read().strip())]; [None] is the [ValueError] that the [try]
    catches. *)
Definition parse_result (task_path : string) : option float :=
  read fs task_path ≫= λ text, py_float (py_strip text).

(** The body of the loop over [os.listdir(domain_path)]. *)
Definition task_step (exp_name domain domain_path : string)
    (st : task_state) (task : string) : task_state :=
  let '(task_results, errs, log) := st in
  let task_path := os_path_join domain_path [task; "result.txt"] in
  if isfile fs task_path then
    match parse_result task_path with
    | Some result => (task_results ++ [result], errs, log)
    | None =>
        (task_results ++ [nan], S errs,
         log ++ [(ERROR, "Invalid result.txt in " +:+ exp_name +:+ ", "
                         +:+ domain +:+ "/" +:+ task)])
    end
  else
    (task_results ++ [nan], S errs,
     log ++ [(WARNING, "Missing result.txt in " +:+ exp_name +:+ ", "
                       +:+ domain +:+ "/" +:+ task)]).

Definition valid_results (task_results : list float) : list float :=
  List.filter (λ res, negb (is_nan res)) task_results.

(** The value stored in [row[domain]] for a domain directory that exists. *)
Definition domain_aggregate (task_results : list float) : pyval :=
  match task_results with
  | [] => PyNone
  | _ =>
      match valid_results task_results with
      | [] => PyNone
      | valid => PyFloat (py_sum valid / float_of_len (length valid) * 100)
      end
  end.

Definition row_state : Type := gmap string pyval * nat * list log_record.

(** The body of the loop over the twelve domains. *)
Definition domain_step (exp_name results_path : string)
    (st : row_state) (domain : string) : row_state :=
  let '(row, errs, log) := st in
  let domain_path := os_path_join results_path [domain] in
  if isdir fs domain_path then
    let '(task_results, errs', log') :=
      fold_left (task_step exp_name domain domain_path)
                (listdir fs domain_path) ([], errs, log) in
    (<[domain := domain_aggregate task_results]> row, errs', log')
  else (<[domain := PyNone]> row, errs, log).

Definition uia_glyph (exp_details : exp_config) : string :=
  if py_eq_str (dict_get exp_details "a11y_backend" (PyStr "")) "uia"
  then "✅" else "❌".

(** The row before the loop over the domains. *)
Definition initial_row (exp_name : string) (exp_details : exp_config)
    (columns : list string) : gmap string pyval :=
  let row := fold_left (λ r col, <[col := PyNone]> r) columns ∅ in
  let row := <["exp_name" := PyStr exp_name]> row in
  let row := <["uia_value" := PyStr (uia_glyph exp_details)]> row in
  let row := <["som_origin" := dict_get exp_details "som_origin" (PyStr "N/A")]> row in
  <["model" := dict_get exp_details "model_name" (PyStr "Unknown")]> row.

Definition results_path_of (result_dir exp_name model : string) : string :=
  os_path_join result_dir [exp_name; "pyautogui"; "a11y_tree"; model; "0"].

Definition process_experiment (exp_name : string) (exp_details : exp_config)
    (result_dir : string) (columns : list string)
    : result (gmap string pyval * list log_record) :=
  let row := initial_row exp_name exp_details columns in
  getitem exp_details "model_name" ≫= λ model,
  as_path model ≫= λ model,
  let results_path := results_path_of result_dir exp_name model in
  let '(row, errs, log) :=
    fold_left (domain_step exp_name results_path) domains (row, 0, []) in
  Ok (<["*errors*" := PyInt (Z.of_nat errs)]> row, log).

(** *** get_results_from_json *)

Definition columns : list string :=
  ["exp_name"; "uia_value"; "som_origin"; "model";
   "chrome"; "libreoffice_calc"; "libreoffice_writer";
   "vlc"; "vs_code"; "settings"; "windows_calc";
   "clock"; "msedge"; "file_explorer"; "microsoft_paint"; "notepad"; "*errors*"].

(** [str(v)]. *)
Definition py_str (v : pyval) : string :=
  match v with
  | PyNone => "None"
  | PyBool b => if b then "True" else "False"
  | PyInt z => NilZero.string_of_int (Z.to_int z)
  | PyFloat f => py_str_float f
  | PyStr s => s
  end.

(** [str(row[col]) if row[col] is not None else ""]. *)
Definition render_cell (row : gmap string pyval) (col : string) : result string :=
  getitem row col ≫= λ v,
  Ok (match v with PyNone => "" | _ => py_str v end).

Definition header : string :=
  "| " +:+ String.concat " | " columns +:+ " |" +:+ newline.

Definition separator : string :=
  "|" +:+ String.concat " | " (replicate (length columns) "---") +:+ "|" +:+ newline.

Definition render_row (row : gmap string pyval) : result string :=
  mapM (render_cell row) columns ≫= λ cells,
  Ok ("| " +:+ String.concat " | " cells +:+ " |" +:+ newline).

(** The loop that appends one line per row to the [StringIO] buffer. *)
Fixpoint write_rows (output : string) (results : list (gmap string pyval))
    : result string :=
  match results with
  | [] => Ok output
  | row :: results' =>
      render_row row ≫= λ row_markdown,
      write_rows (output +:+ row_markdown) results'
  end.

(** What the program does to its environment: the records it logs and the
    [f.write] calls it makes, each with the path of the file and the text. *)
Record world := {
  w_log : list log_record;
  w_writes : list (string * string)
}.

(** [ThreadPoolExecutor.map]: one future per item, in the order of the
    items; the workers run the jobs in some order, the [schedule], each
    storing its outcome in the future of its item. *)

(** What the future of an item holds once its job has run. *)
Definition outcome_of {A B} (f : A → result (B * list log_record)) (x : A)
    : result B :=
  match f x with
  | Ok (b, _) => Ok b
  | Raise e => Raise e
  end.

Definition run_job {A B} (f : A → result (B * list log_record)) (xs : list A)
    (st : list (future B) * list log_record) (i : nat)
    : list (future B) * list log_record :=
  let '(futures, log) := st in
  match xs !! i with
  | Some x =>
      match f x with
      | Ok (b, l) => (<[i := Some (Ok b)]> futures, log ++ l)
      | Raise e => (<[i := Some (Raise e)]> futures, log)
      end
  | None => st
  end.

(** The iterator that [executor.map] returns yields the results of the
    futures in the order of the items and re-raises the exception of the
    first one that failed; it waits, forever ([None]) if need be, for a
    future whose job has not run. *)
Fixpoint gather {B} (futures : list (future B)) : option (result (list B)) :=
  match futures with
  | [] => Some (Ok [])
  | None :: _ => None
  | Some (Raise e) :: _ => Some (Raise e)
  | Some (Ok b) :: futures' =>
      match gather futures' with
      | Some (Ok bs) => Some (Ok (b :: bs))
      | other => other
      end
  end.

Definition executor_map {A B} (f : A → result (B * list log_record))
    (xs : list A) (schedule : list nat) (log : list log_record)
    : option (result (list B)) * list log_record :=
  let '(futures, log') :=
    fold_left (run_job f xs) schedule (replicate (length xs) None, log) in
  (gather futures, log').

Definition get_results_from_json (result_dir : string)
    (config : list (string * exp_config)) (output_file : string)
    (schedule : list nat) (w : world) : option (result unit * world) :=
  let output := header +:+ separator in
  let '(results, log) :=
    executor_map (λ exp, process_experiment exp.1 exp.2 result_dir columns)
                 config schedule (w_log w) in
  match results with
  | None => None
  | Some (Raise e) => Some (Raise e, {| w_log := log; w_writes := w_writes w |})
  | Some (Ok results) =>
      match write_rows output results with
      | Raise e => Some (Raise e, {| w_log := log; w_writes := w_writes w |})
      | Ok text =>
          Some (Ok tt,
                {| w_log := log ++ [(INFO, "Results table saved to " +:+ output_file)];
                   w_writes := w_writes w ++ [(output_file, text)] |})
      end
  end.

(** *** The entry point, after the arguments and the configuration are read *)

Inductive termination :=
  | Exited (status : Z)
  | Uncaught (e : exn).

Definition main (result_dir : string) (config : list (string * exp_config))
    (output_file : string) (schedule : list nat) (w : world)
    : option (termination * world) :=
  match validate_config config with
  | Raise (ValueError msg) =>
      Some (Exited 1,
            {| w_log := w_log w ++ [(ERROR, "Configuration error: " +:+ msg)];
               w_writes := w_writes w |})
  | Raise e => Some (Uncaught e, w)
  | Ok _ =>
      match get_results_from_json result_dir config output_file schedule w with
      | None => None
      | Some (Ok _, w') => Some (Exited 0, w')
      | Some (Raise e, w') => Some (Uncaught e, w')
      end
  end.

(** *** The quantities the specification speaks of *)

Definition result_file (domain_path task : string) : string :=
  os_path_join domain_path [task; "result.txt"].

(** The entries of a domain directory, by what their [result.txt] is:
    a file that parses as a float, a file that does not, or no file. *)
Definition parsed_tasks (domain_path : string) : list string :=
  List.filter (λ task, isfile fs (result_file domain_path task)
                       && bool_decide (is_Some (parse_result (result_file domain_path task))))
              (listdir fs domain_path).

Definition unparsable_tasks (domain_path : string) : list string :=
  List.filter (λ task, isfile fs (result_file domain_path task)
                       && bool_decide (parse_result (result_file domain_path task) = None))
              (listdir fs domain_path).

Definition missing_tasks (domain_path : string) : list string :=
  List.filter (λ task, negb (isfile fs (result_file domain_path task)))
              (listdir fs domain_path).

(** The valid value of an entry, if it has one: parsed, and not NaN. *)
Definition valid_value (domain_path task : string) : option float :=
  if isfile fs (result_file domain_path task) then
    match parse_result (result_file domain_path task) with
    | Some v => if is_nan v then None else Some v
    | None => None
    end
  else None.

Definition valid_values (domain_path : string) : list float :=
  omap (valid_value domain_path) (listdir fs domain_path).

(** (sum of the values / count of the values) * 100. *)
Definition percentage (values : list float) : float :=
  py_sum values / float_of_len (length values) * 100.

(** The aggregate of a domain: absent without a valid value. *)
Definition expected_cell (domain_path : string) : pyval :=
  if isdir fs domain_path then
    match valid_values domain_path with
    | [] => PyNone
    | values => PyFloat (percentage values)
    end
  else PyNone.

(** The errors a domain adds to the counter. *)
Definition domain_errors (domain_path : string) : nat :=
  if isdir fs domain_path
  then length (unparsable_tasks domain_path) + length (missing_tasks domain_path)
  else 0.

(** Over the domains whose directory exists: all the entries, and those
    whose [result.txt] parsed. *)
Definition existing (results_path : string) : list string :=
  List.filter (λ domain_path, isdir fs domain_path)
              (map (λ domain, os_path_join results_path [domain]) domains).

Definition all_entries (results_path : string) : list string :=
  existing results_path ≫= listdir fs.

Definition all_parsed (results_path : string) : list string :=
  existing results_path ≫= parsed_tasks.

(** The directory of a domain of an experiment. *)
Definition domain_dir (result_dir exp_name model domain : string) : string :=
  os_path_join (results_path_of result_dir exp_name model) [domain].

(** The cell of a column in what [process_experiment] returns. *)
Definition cell (r : result (gmap string pyval * list log_record))
    (col : string) : option pyval :=
  match r with
  | Ok (row, _) => row !! col
  | Raise _ => None
  end.

(** A record that has the four required keys. *)
Definition complete (exp_details : exp_config) : Prop :=
  Forall (λ key, is_Some (exp_details !! key)) required_keys.

(** The experiments the processor can handle: [model_name] is there, and a
    string. *)
Definition has_model (exp : string * exp_config) : Prop :=
  ∃ model, exp.2 !! "model_name" = Some (PyStr model).

End Script.

(** ** An interpreter and a results tree to run the script on *)

Module Sample.

Definition is_space (c : ascii) : bool :=
  let n := nat_of_ascii c in
  Nat.eqb n 32 || (Nat.leb 9 n && Nat.leb n 13).

Fixpoint lstrip (s : string) : string :=
  match s with
  | String c rest => if is_space c then lstrip rest else s
  | EmptyString => EmptyString
  end.

Fixpoint rstrip (s : string) : string :=
  match s with
  | EmptyString => EmptyString
  | String c rest =>
      match rstrip rest with
      | EmptyString => if is_space c then EmptyString else String c EmptyString
      | rest' => String c rest'
      end
  end.

(** [str.strip()] on ASCII text. *)
Definition strip (s : string) : string := rstrip (lstrip s).

(** [float(s)] on the literals the results tree below holds; it takes any
    other text for one that is not a number. *)
Definition float_of (s : string) : option float :=
  if bool_decide (s = "0.5") then Some 0.5%float
  else if bool_decide (s = "1.0") then Some 1%float
  else if bool_decide (s = "2.0") then Some 2%float
  else if bool_decide (s = "50.0") then Some 50%float
  else if bool_decide (s = "100.0") then Some 100%float
  else if bool_decide (s = "nan") then Some nan
  else None.

(** [str(x)] on the floats the rows below hold. *)
Definition str_of_float (x : float) : string :=
  if PrimFloat.eqb x 75 then "75.0"
  else if PrimFloat.eqb x 100 then "100.0"
  else if PrimFloat.eqb x 200 then "200.0"
  else if PrimFloat.eqb x 7500 then "7500.0"
  else "nan".

Inductive node :=
  | Dir (entries : list string)
  | File (text : string).

Definition fs_of (tree : gmap string node) : filesystem := {|
  isdir path := match tree !! path with Some (Dir _) => true | _ => false end;
  listdir path := match tree !! path with Some (Dir entries) => entries | _ => [] end;
  isfile path := match tree !! path with Some (File _) => true | _ => false end;
  read path := match tree !! path with Some (File text) => Some text | _ => None end
|}.

Definition root : string := "results/expA/pyautogui/a11y_tree/gpt-4/0".

(** Seven of the twelve domains have a directory:
    - [chrome]: two tasks, 50.0 and 100.0;
    - [vs_code]: two tasks, 0.5 and 1.0;
    - [vlc]: two tasks, both "nan";
    - [settings]: no entry;
    - [clock]: a task with 1.0, a task without [result.txt], a stray file;
    - [msedge]: one task, whose [result.txt] reads "abc";
    - [notepad]: one task, 2.0. *)
Definition tree : gmap string node :=
  list_to_map [
    (root +:+ "/chrome", Dir ["t1"; "t2"]);
    (root +:+ "/chrome/t1/result.txt", File ("50.0" +:+ newline));
    (root +:+ "/chrome/t2/result.txt", File "100.0");
    (root +:+ "/vs_code", Dir ["u"; "v"]);
    (root +:+ "/vs_code/u/result.txt", File "0.5");
    (root +:+ "/vs_code/v/result.txt", File (" 1.0" +:+ newline));
    (root +:+ "/vlc", Dir ["a"; "b"]);
    (root +:+ "/vlc/a/result.txt", File "nan");
    (root +:+ "/vlc/b/result.txt", File ("nan" +:+ newline));
    (root +:+ "/settings", Dir []);
    (root +:+ "/clock", Dir ["t1"; "t2"; "notes.txt"]);
    (root +:+ "/clock/t1/result.txt", File "1.0");
    (root +:+ "/clock/notes.txt", File "to do");
    (root +:+ "/msedge", Dir ["x"]);
    (root +:+ "/msedge/x/result.txt", File "abc");
    (root +:+ "/notepad", Dir ["t"]);
    (root +:+ "/notepad/t/result.txt", File "2.0")
  ].

Definition fs : filesystem := fs_of tree.

Definition expA : exp_config :=
  list_to_map [("exp_name", PyStr "expA"); ("a11y_backend", PyStr "uia");
               ("som_origin", PyStr "gpt"); ("model_name", PyStr "gpt-4")].

(** [expA] without its [model_name]. *)
Definition no_model : exp_config := delete "model_name" expA.

(** An experiment of which the tree has no directory. *)
Definition expB : exp_config :=
  list_to_map [("exp_name", PyStr "expB"); ("a11y_backend", PyStr "win32");
               ("som_origin", PyStr "oss"); ("model_name", PyStr "phi3")].

Definition config : list (string * exp_config) := [("expA", expA); ("expB", expB)].

Definition bad_config : list (string * exp_config) :=
  [("expA", expA); ("expC", delete "som_origin" no_model); ("expD", no_model)].

Definition process := process_experiment strip float_of fs.

Definition world0 : world := {| w_log := []; w_writes := [] |}.

End Sample.

(** ** What the script logs, and the text of a cell *)

Section Records.

Variable py_strip : string → string.
Variable py_float : string → option float.
Variable py_str_float : float → string.
Variable fs : filesystem.

(** The records one entry of a domain directory adds to the log. *)
Definition task_log (exp_name domain domain_path task : string)
    : list log_record :=
  if isfile fs (result_file domain_path task) then
    match parse_result py_strip py_float fs (result_file domain_path task) with
    | Some _ => []
    | None =>
        [(ERROR, "Invalid result.txt in " +:+ exp_name +:+ ", "
                 +:+ domain +:+ "/" +:+ task)]
    end
  else
    [(WARNING, "Missing result.txt in " +:+ exp_name +:+ ", "
               +:+ domain +:+ "/" +:+ task)].

Definition domain_log (exp_name results_path domain : string)
    : list log_record :=
  if isdir fs (os_path_join results_path [domain])
  then listdir fs (os_path_join results_path [domain])
       ≫= task_log exp_name domain (os_path_join results_path [domain])
  else [].

Definition experiment_log (exp_name results_path : string) : list log_record :=
  domains ≫= domain_log exp_name results_path.

(** The text of a cell of the table: empty for [None]. *)
Definition cell_text (v : pyval) : string :=
  match v with
  | PyNone => ""
  | _ => py_str py_str_float v
  end.

(** The cells of the line of an experiment whose model is a string, as the
    columns list them. *)
Definition expected_cells (exp_name : string) (exp_details : exp_config)
    (result_dir model : string) : list string :=
  [exp_name;
   uia_glyph exp_details;
   cell_text (dict_get exp_details "som_origin" (PyStr "N/A"));
   model]
  ++ map (λ domain,
            cell_text (expected_cell py_strip py_float fs
                         (domain_dir result_dir exp_name model domain)))
         domains
  ++ [NilZero.string_of_int
        (Z.to_int (Z.of_nat (length
           (experiment_log exp_name
              (results_path_of result_dir exp_name model)))))].

(** The records the jobs add to the log when they run in the order of a
    schedule; those of one job are kept together. *)
Definition schedule_log {A B} (f : A → result (B * list log_record))
    (xs : list A) (schedule : list nat) : list log_record :=
  schedule ≫= λ i,
    match xs !! i with
    | Some x => match f x with Ok (_, l) => l | Raise _ => [] end
    | None => []
    end.

End Records.

(** Two file systems that show the same directory of a domain: the same
    entries, and below each the same [result.txt]. *)
Definition same_domain (fs1 fs2 : filesystem) (domain_path : string) : Prop :=
  isdir fs1 domain_path = isdir fs2 domain_path
  ∧ (isdir fs1 domain_path = true →
     listdir fs1 domain_path = listdir fs2 domain_path
     ∧ ∀ task, task ∈ listdir fs1 domain_path →
         isfile fs1 (result_file domain_path task)
         = isfile fs2 (result_file domain_path task)
         ∧ (isfile fs1 (result_file domain_path task) = true →
            read fs1 (result_file domain_path task)
            = read fs2 (result_file domain_path task))).

(** A component of a path that [os.path.join] appends after a separator:
    it is not empty and has no separator at either end. *)
Definition plain (component : string) : Prop :=
  component ≠ ""
  ∧ startswith_sep component = false
  ∧ endswith_sep component = false.

Module Sample2.

(** The sample tree without the directory of [clock] and what is below it,
    and with another task in [msedge]. *)
Definition tree : gmap string Sample.node :=
  <[Sample.root +:+ "/msedge/y/result.txt" := Sample.File "1.0"]>
    (<[Sample.root +:+ "/msedge" := Sample.Dir ["x"; "y"]]>
       (delete (Sample.root +:+ "/clock")
          (delete (Sample.root +:+ "/clock/t1/result.txt") Sample.tree))).

Definition fs : filesystem := Sample.fs_of tree.

(** A record that passes the validation with a number as its model. *)
Definition expN : exp_config := <["model_name" := PyInt 4]> Sample.expA.

Definition numeric_config : list (string * exp_config) :=
  [("expA", Sample.expA); ("expN", expN); ("expB", Sample.expB)].

(** A record with [null] as its origin, and one without an origin. *)
Definition null_origin : exp_config := <["som_origin" := PyNone]> Sample.expA.
Definition no_origin : exp_config := delete "som_origin" Sample.expA.

(** A configuration with a record that has no model. *)
Definition keyless_config : list (string * exp_config) :=
  [("expA", Sample.expA); ("expD", Sample.no_model); ("expN", expN)].

End Sample2.

(** ** Properties *)

(** The lookup of a key in a row built by successive assignments. *)
Ltac lookup_row :=
  repeat (rewrite lookup_insert_ne by done); rewrite lookup_insert_eq.

(** Membership in a list of literals, by evaluation. *)
Ltac by_evaluation := apply (bool_decide_unpack _); by vm_compute.

(** The elements of a list of literals one by one. *)
Ltac each_domain H :=
  repeat (apply elem_of_cons in H as [->|H]);
  [..|exfalso; by apply elem_of_nil in H].

Section Properties.

Variable py_strip : string → string.
Variable py_float : string → option float.
Variable py_str_float : float → string.
Variable fs : filesystem.

Local Abbreviation parse_result := (parse_result py_strip py_float fs).
Local Abbreviation task_step := (task_step py_strip py_float fs).
Local Abbreviation domain_step := (domain_step py_strip py_float fs).
Local Abbreviation process_experiment := (process_experiment py_strip py_float fs).
Local Abbreviation valid_value := (valid_value py_strip py_float fs).
Local Abbreviation valid_values := (valid_values py_strip py_float fs).
Local Abbreviation parsed_tasks := (parsed_tasks py_strip py_float fs).
Local Abbreviation unparsable_tasks := (unparsable_tasks py_strip py_float fs).
Local Abbreviation missing_tasks := (missing_tasks fs).
Local Abbreviation expected_cell := (expected_cell py_strip py_float fs).
Local Abbreviation domain_errors := (domain_errors py_strip py_float fs).
Local Abbreviation render_cell := (render_cell py_str_float).
Local Abbreviation render_row := (render_row py_str_float).
Local Abbreviation write_rows := (write_rows py_str_float).
Local Abbreviation get_results_from_json :=
  (get_results_from_json py_strip py_float py_str_float fs).
Local Abbreviation main := (main py_strip py_float py_str_float fs).

(** *** The loop over the entries of a domain directory *)

Lemma valid_results_snoc rs v :
  valid_results (rs ++ [v]) = valid_results rs ++ (if is_nan v then [] else [v]).
Proof.
  unfold valid_results. rewrite List.filter_app. simpl.
  by destruct (is_nan v).
Qed.

Lemma task_step_eq exp_name domain dp rs errs log task :
  task_step exp_name domain dp (rs, errs, log) task
  = if isfile fs (result_file dp task) then
      match parse_result (result_file dp task) with
      | Some result => (rs ++ [result], errs, log)
      | None =>
          (rs ++ [nan], S errs,
           log ++ [(ERROR, "Invalid result.txt in " +:+ exp_name +:+ ", "
                           +:+ domain +:+ "/" +:+ task)])
      end
    else
      (rs ++ [nan], S errs,
       log ++ [(WARNING, "Missing result.txt in " +:+ exp_name +:+ ", "
                         +:+ domain +:+ "/" +:+ task)]).
Proof. reflexivity. Qed.

Lemma valid_value_eq dp task :
  valid_value dp task
  = if isfile fs (result_file dp task) then
      match parse_result (result_file dp task) with
      | Some v => if is_nan v then None else Some v
      | None => None
      end
    else None.
Proof. reflexivity. Qed.

Lemma fold_task_step exp_name domain dp tasks : ∀ rs errs log,
  ∃ rs' log',
    fold_left (task_step exp_name domain dp) tasks (rs, errs, log)
    = (rs',
       errs + length (List.filter (λ t, isfile fs (result_file dp t)
                         && bool_decide (parse_result (result_file dp t) = None)) tasks)
            + length (List.filter (λ t, negb (isfile fs (result_file dp t))) tasks),
       log')
    ∧ length rs' = length rs + length tasks
    ∧ valid_results rs' = valid_results rs ++ omap (valid_value dp) tasks.
Proof.
  induction tasks as [|task tasks IH]; intros rs errs log.
  - exists rs, log. simpl. rewrite !Nat.add_0_r, app_nil_r. done.
  - cbn [fold_left List.filter omap list_omap].
    rewrite task_step_eq, valid_value_eq.
    destruct (isfile fs (result_file dp task)) eqn:Hfile;
      [destruct (parse_result (result_file dp task)) as [v|] eqn:Hparse|];
      match goal with
      | |- context [fold_left _ tasks (?rs1, ?errs1, ?log1)] =>
          destruct (IH rs1 errs1 log1) as (rs' & log' & -> & Hlen & Hvalid)
      end;
      exists rs', log'; rewrite Hlen, Hvalid, valid_results_snoc, length_app;
      cbn [andb negb length].
    + rewrite bool_decide_eq_false_2 by done.
      split_and!; [done | cbn; lia |].
      rewrite <- app_assoc. by destruct (is_nan v).
    + rewrite bool_decide_eq_true_2 by done.
      split_and!; [cbn [length]; do 2 f_equal; lia | cbn; lia |].
      by rewrite <- app_assoc.
    + split_and!; [cbn [length]; do 2 f_equal; lia | cbn; lia |].
      by rewrite <- app_assoc.
Qed.

Lemma domain_aggregate_valid rs :
  domain_aggregate rs
  = match valid_results rs with
    | [] => PyNone
    | values => PyFloat (percentage values)
    end.
Proof. by destruct rs. Qed.

(** What one turn of the loop over the domains does. *)
Lemma domain_step_spec exp_name rp row errs log domain :
  ∃ log',
    domain_step exp_name rp (row, errs, log) domain
    = (<[domain := expected_cell (os_path_join rp [domain])]> row,
       errs + domain_errors (os_path_join rp [domain]), log').
Proof.
  unfold domain_step, expected_cell, domain_errors.
  destruct (isdir fs (os_path_join rp [domain])) eqn:Hdir.
  - destruct (fold_task_step exp_name domain (os_path_join rp [domain])
                (listdir fs (os_path_join rp [domain])) [] errs log)
      as (rs' & log' & -> & _ & Hvalid).
    exists log'. rewrite domain_aggregate_valid, Hvalid. simpl.
    unfold unparsable_tasks, missing_tasks, valid_values.
    f_equal. f_equal. lia.
  - exists log. by rewrite Nat.add_0_r.
Qed.

(** *** The loop over the domains *)

Lemma fold_domain_step exp_name rp ds : ∀ row errs log,
  ∃ row' log',
    fold_left (domain_step exp_name rp) ds (row, errs, log)
    = (row',
       errs + sum_list (map (λ d, domain_errors (os_path_join rp [d])) ds),
       log')
    ∧ (∀ d, d ∈ ds → row' !! d = Some (expected_cell (os_path_join rp [d])))
    ∧ (∀ k, k ∉ ds → row' !! k = row !! k).
Proof.
  induction ds as [|d0 ds IH]; intros row errs log.
  - exists row, log. cbn. rewrite Nat.add_0_r.
    split_and!; [done | | done]. intros d Hd. by apply elem_of_nil in Hd.
  - cbn [fold_left map sum_list].
    destruct (domain_step_spec exp_name rp row errs log d0) as [log1 ->].
    destruct (IH (<[d0 := expected_cell (os_path_join rp [d0])]> row)
                 (errs + domain_errors (os_path_join rp [d0])) log1)
      as (row' & log' & -> & Hin & Hout).
    exists row', log'. split_and!.
    + do 2 f_equal. cbn. lia.
    + intros d Hd. destruct (decide (d ∈ ds)) as [|Hnot]; [by apply Hin|].
      apply elem_of_cons in Hd as [->|]; [|done].
      by rewrite Hout, lookup_insert_eq.
    + intros k Hk. apply not_elem_of_cons in Hk as [Hne Hk].
      by rewrite Hout, lookup_insert_ne.
Qed.

(** *** process_experiment on a record whose model is a string *)

Lemma errors_not_domain : "*errors*" ∉ domains.
Proof. apply (bool_decide_unpack _). by vm_compute. Qed.

Lemma process_experiment_spec exp_name details result_dir cols model :
  details !! "model_name" = Some (PyStr model) →
  ∃ row log,
    process_experiment exp_name details result_dir cols = Ok (row, log)
    ∧ (∀ d, d ∈ domains →
         row !! d = Some (expected_cell
                            (os_path_join (results_path_of result_dir exp_name model) [d])))
    ∧ row !! "*errors*"
      = Some (PyInt (Z.of_nat (sum_list (map
          (λ d, domain_errors
                  (os_path_join (results_path_of result_dir exp_name model) [d]))
          domains))))
    ∧ (∀ k, k ∉ domains → k ≠ "*errors*" →
         row !! k = initial_row exp_name details cols !! k).
Proof.
  intros Hmodel. unfold process_experiment, getitem. rewrite Hmodel.
  cbn [mbind result_bind as_path].
  destruct (fold_domain_step exp_name (results_path_of result_dir exp_name model)
              domains (initial_row exp_name details cols) 0 [])
    as (row' & log' & -> & Hin & Hout).
  eexists _, _. split_and!; [done | | |].
  - intros d Hd. rewrite lookup_insert_ne; [by apply Hin|].
    intros <-. by apply errors_not_domain.
  - by rewrite lookup_insert_eq.
  - intros k Hk Hne. rewrite lookup_insert_ne by done. by apply Hout.
Qed.

(** *** Entries, parsed entries and errors *)

Lemma tasks_partition dp tasks :
  length (List.filter (λ t, isfile fs (result_file dp t)
             && bool_decide (parse_result (result_file dp t) = None)) tasks)
  + length (List.filter (λ t, negb (isfile fs (result_file dp t))) tasks)
  + length (List.filter (λ t, isfile fs (result_file dp t)
             && bool_decide (is_Some (parse_result (result_file dp t)))) tasks)
  = length tasks.
Proof.
  induction tasks as [|task tasks IH]; [done|].
  cbn [List.filter].
  destruct (isfile fs (result_file dp task));
    [destruct (parse_result (result_file dp task)) as [v|] eqn:Hparse|];
    cbn [andb negb].
  - rewrite bool_decide_eq_false_2, bool_decide_eq_true_2 by eauto.
    cbn [length]. lia.
  - rewrite bool_decide_eq_true_2, bool_decide_eq_false_2
      by (try done; by intros [? ?]).
    cbn [length]. lia.
  - cbn [length]. lia.
Qed.

(** *** Domains without a valid value *)

Lemma expected_cell_no_valid dp :
  valid_values dp = [] → expected_cell dp = PyNone.
Proof. unfold expected_cell. intros ->. by destruct (isdir fs dp). Qed.

Lemma expected_cell_no_dir dp :
  isdir fs dp = false → expected_cell dp = PyNone.
Proof. unfold expected_cell. by intros ->. Qed.

Lemma domain_errors_no_dir dp :
  isdir fs dp = false → domain_errors dp = 0.
Proof. unfold domain_errors. by intros ->. Qed.

Lemma domain_errors_parsed dp :
  isdir fs dp = true →
  domain_errors dp + length (parsed_tasks dp) = length (listdir fs dp).
Proof.
  intros Hdir. unfold domain_errors, unparsable_tasks, missing_tasks, parsed_tasks.
  rewrite Hdir. apply tasks_partition.
Qed.

Lemma errors_entries_parsed rp ds :
  sum_list (map (λ d, domain_errors (os_path_join rp [d])) ds)
  + length (List.filter (λ dp, isdir fs dp)
                        (map (λ d, os_path_join rp [d]) ds) ≫= parsed_tasks)
  = length (List.filter (λ dp, isdir fs dp)
                        (map (λ d, os_path_join rp [d]) ds) ≫= listdir fs).
Proof.
  induction ds as [|d ds IH]; [done|].
  cbn [map sum_list List.filter].
  destruct (isdir fs (os_path_join rp [d])) eqn:Hdir.
  - rewrite !bind_cons, !length_app.
    pose proof (domain_errors_parsed _ Hdir). unfold id in *. lia.
  - rewrite (domain_errors_no_dir _ Hdir). unfold id in *. lia.
Qed.

Lemma domain_errors_empty dp :
  listdir fs dp = [] → domain_errors dp = 0.
Proof.
  unfold domain_errors, unparsable_tasks, missing_tasks. intros ->.
  by destruct (isdir fs dp).
Qed.

(** A directory all of whose entries parse adds no error. *)
Lemma domain_errors_all_parsed dp :
  Forall (λ t, isfile fs (result_file dp t) = true
               ∧ is_Some (parse_result (result_file dp t))) (listdir fs dp) →
  domain_errors dp = 0.
Proof.
  intros Hall. unfold domain_errors, unparsable_tasks, missing_tasks.
  destruct (isdir fs dp); [|done].
  induction Hall as [|t ts [Hfile [v Hv]] _ IH]; [done|].
  cbn [List.filter]. rewrite Hfile, Hv. cbn [andb negb].
  by rewrite bool_decide_eq_false_2.
Qed.

(** A directory all of whose entries parse as NaN has no valid value. *)
Lemma valid_values_all_nan dp :
  Forall (λ t, isfile fs (result_file dp t) = true
               ∧ ∃ v, parse_result (result_file dp t) = Some v
                      ∧ is_nan v = true) (listdir fs dp) →
  valid_values dp = [].
Proof.
  intros Hall. unfold valid_values.
  induction Hall as [|t ts (Hfile & v & Hv & Hnan) _ IH]; [done|].
  cbn [omap list_omap]. rewrite valid_value_eq, Hfile, Hv, Hnan. exact IH.
Qed.

(** *** The aggregate of a domain *)

(** C1, amended. For a record whose model is a string and a domain, of the
    twelve, whose directory exists and holds at least one valid value
    (parsed, and not NaN), [process_experiment] returns a row whose cell of
    the domain is (sum of the valid values / their count) * 100; for the
    valid values 50.0 and 100.0 it is 7500.0. *)
Theorem domain_aggregate_is_percentage
    exp_name details result_dir cols model domain :
  details !! "model_name" = Some (PyStr model) →
  domain ∈ domains →
  isdir fs (domain_dir result_dir exp_name model domain) = true →
  valid_values (domain_dir result_dir exp_name model domain) ≠ [] →
  ∃ row log,
    process_experiment exp_name details result_dir cols = Ok (row, log)
    ∧ row !! domain
      = Some (PyFloat
          (py_sum (valid_values (domain_dir result_dir exp_name model domain))
           / float_of_len
               (length (valid_values (domain_dir result_dir exp_name model domain)))
           * 100))
    ∧ (valid_values (domain_dir result_dir exp_name model domain)
       = [50%float; 100%float] →
       row !! domain = Some (PyFloat 7500)).
Proof.
  intros Hmodel Hdomain Hdir Hvalid.
  destruct (process_experiment_spec exp_name details result_dir cols model Hmodel)
    as (row & log & Hrun & Hcells & _).
  exists row, log. split; [done|].
  assert (Hcell : row !! domain
                  = Some (PyFloat (percentage
                      (valid_values (domain_dir result_dir exp_name model domain))))).
  { rewrite (Hcells domain Hdomain). unfold expected_cell.
    fold (domain_dir result_dir exp_name model domain). rewrite Hdir.
    by destruct (valid_values (domain_dir result_dir exp_name model domain)). }
  split; [exact Hcell|].
  intros Hvalues. rewrite Hcell, Hvalues. reflexivity.
Qed.

(** *** The policy for one entry of a domain directory *)

(** C2, amended. An entry whose [result.txt] parses is recorded with its
    value and leaves the error counter as it is; the value enters the mean
    unless it is NaN. An entry whose [result.txt] does not parse, or is
    absent, is recorded as NaN, adds one to the counter and stays out of the mean.
    So a domain directory that exists gets the mean of its valid values
    (parsed, not NaN), and the counter grows by one for each entry that
    does not parse and for each that has no [result.txt]. *)
Theorem task_policy exp_name domain dp rs errs log task :
  (∀ v, isfile fs (result_file dp task) = true →
        parse_result (result_file dp task) = Some v →
        task_step exp_name domain dp (rs, errs, log) task = (rs ++ [v], errs, log)
        ∧ valid_results (rs ++ [v])
          = valid_results rs ++ (if is_nan v then [] else [v]))
  ∧ (isfile fs (result_file dp task) = true →
     parse_result (result_file dp task) = None →
     task_step exp_name domain dp (rs, errs, log) task
     = (rs ++ [nan], S errs,
        log ++ [(ERROR, "Invalid result.txt in " +:+ exp_name +:+ ", "
                        +:+ domain +:+ "/" +:+ task)])
     ∧ valid_results (rs ++ [nan]) = valid_results rs)
  ∧ (isfile fs (result_file dp task) = false →
     task_step exp_name domain dp (rs, errs, log) task
     = (rs ++ [nan], S errs,
        log ++ [(WARNING, "Missing result.txt in " +:+ exp_name +:+ ", "
                          +:+ domain +:+ "/" +:+ task)])
     ∧ valid_results (rs ++ [nan]) = valid_results rs)
  ∧ (∀ rp row, isdir fs (os_path_join rp [domain]) = true →
     ∃ log', domain_step exp_name rp (row, errs, log) domain
             = (<[domain := match valid_values (os_path_join rp [domain]) with
                            | [] => PyNone
                            | values => PyFloat (percentage values)
                            end]> row,
                errs + length (unparsable_tasks (os_path_join rp [domain]))
                     + length (missing_tasks (os_path_join rp [domain])),
                log')).
Proof.
  split_and!.
  - intros v Hfile Hparse. rewrite task_step_eq, Hfile, Hparse.
    by rewrite valid_results_snoc.
  - intros Hfile Hparse. rewrite task_step_eq, Hfile, Hparse.
    split; [done|]. rewrite valid_results_snoc. cbn. by rewrite app_nil_r.
  - intros Hfile. rewrite task_step_eq, Hfile.
    split; [done|]. rewrite valid_results_snoc. cbn. by rewrite app_nil_r.
  - intros rp row Hdir.
    destruct (domain_step_spec exp_name rp row errs log domain) as [log' ->].
    exists log'. unfold expected_cell, domain_errors. rewrite Hdir.
    do 2 f_equal. lia.
Qed.

(** *** Absent aggregates *)

(** C5. For a domain whose directory exists and yields no valid value, the
    cell of the row is [None], not zero, and is rendered as the empty
    string; when the directory has no entry at all, the turn of the loop
    for the domain leaves the error counter as it is. *)
Theorem no_valid_value_absent_aggregate
    exp_name details result_dir cols model domain :
  details !! "model_name" = Some (PyStr model) →
  domain ∈ domains →
  isdir fs (domain_dir result_dir exp_name model domain) = true →
  valid_values (domain_dir result_dir exp_name model domain) = [] →
  ∃ row log,
    process_experiment exp_name details result_dir cols = Ok (row, log)
    ∧ row !! domain = Some PyNone
    ∧ row !! domain ≠ Some (PyFloat 0)
    ∧ render_cell row domain = Ok ""
    ∧ (listdir fs (domain_dir result_dir exp_name model domain) = [] →
       ∀ row0 errs0 log0,
         domain_step exp_name (results_path_of result_dir exp_name model)
                     (row0, errs0, log0) domain
         = (<[domain := PyNone]> row0, errs0, log0)).
Proof.
  intros Hmodel Hdomain Hdir Hvalid.
  destruct (process_experiment_spec exp_name details result_dir cols model Hmodel)
    as (row & log & Hrun & Hcells & _).
  assert (Hcell : row !! domain = Some PyNone).
  { rewrite (Hcells domain Hdomain). f_equal. by apply expected_cell_no_valid. }
  exists row, log. split_and!; [done | done | by rewrite Hcell | |].
  - unfold render_cell, getitem. by rewrite Hcell.
  - intros Hempty row0 errs0 log0. unfold domain_step.
    fold (domain_dir result_dir exp_name model domain). by rewrite Hdir, Hempty.
Qed.

(** C6. For a domain whose directory does not exist under the results path
    of the experiment, the cell of the row is [None], and the turn of the
    loop for the domain leaves the error counter as it is. *)
Theorem missing_directory_absent_aggregate
    exp_name details result_dir cols model domain :
  details !! "model_name" = Some (PyStr model) →
  domain ∈ domains →
  isdir fs (domain_dir result_dir exp_name model domain) = false →
  ∃ row log,
    process_experiment exp_name details result_dir cols = Ok (row, log)
    ∧ row !! domain = Some PyNone
    ∧ ∀ row0 errs0 log0,
        domain_step exp_name (results_path_of result_dir exp_name model)
                    (row0, errs0, log0) domain
        = (<[domain := PyNone]> row0, errs0, log0).
Proof.
  intros Hmodel Hdomain Hdir.
  destruct (process_experiment_spec exp_name details result_dir cols model Hmodel)
    as (row & log & Hrun & Hcells & _).
  exists row, log. split_and!; [done | |].
  - rewrite (Hcells domain Hdomain). f_equal. by apply expected_cell_no_dir.
  - intros row0 errs0 log0. unfold domain_step.
    fold (domain_dir result_dir exp_name model domain). by rewrite Hdir.
Qed.

(** *** NaN and values out of range *)

(** C8. A [result.txt] that parses as NaN is recorded without an error and
    stays out of the mean; a domain directory all of whose entries parse as
    NaN gets an absent aggregate and adds no error; a sole value of 2.0 is
    valid and gives the aggregate 200.0, above 100. *)
Theorem nan_and_out_of_range_results exp_name rp row errs log domain :
  isdir fs (os_path_join rp [domain]) = true →
  (∀ rs t v, isfile fs (result_file (os_path_join rp [domain]) t) = true →
     parse_result (result_file (os_path_join rp [domain]) t) = Some v →
     is_nan v = true →
     task_step exp_name domain (os_path_join rp [domain]) (rs, errs, log) t
     = (rs ++ [v], errs, log)
     ∧ valid_results (rs ++ [v]) = valid_results rs)
  ∧ (Forall (λ t, isfile fs (result_file (os_path_join rp [domain]) t) = true
                  ∧ ∃ v, parse_result (result_file (os_path_join rp [domain]) t) = Some v
                         ∧ is_nan v = true)
            (listdir fs (os_path_join rp [domain])) →
     ∃ log', domain_step exp_name rp (row, errs, log) domain
             = (<[domain := PyNone]> row, errs, log'))
  ∧ (∀ t, listdir fs (os_path_join rp [domain]) = [t] →
     isfile fs (result_file (os_path_join rp [domain]) t) = true →
     parse_result (result_file (os_path_join rp [domain]) t) = Some 2%float →
     (∃ log', domain_step exp_name rp (row, errs, log) domain
              = (<[domain := PyFloat 200]> row, errs, log'))
     ∧ PrimFloat.ltb 100 200 = true).
Proof.
  intros Hdir. split_and!.
  - intros rs t v Hfile Hparse Hnan. rewrite task_step_eq, Hfile, Hparse.
    split; [done|]. by rewrite valid_results_snoc, Hnan, app_nil_r.
  - intros Hall.
    destruct (domain_step_spec exp_name rp row errs log domain) as [log' ->].
    exists log'.
    rewrite (expected_cell_no_valid _ (valid_values_all_nan _ Hall)).
    rewrite domain_errors_all_parsed, Nat.add_0_r; [done|].
    eapply Forall_impl; [exact Hall|]. intros t (Hfile & v & Hv & _). eauto.
  - intros t Hlist Hfile Hparse. split; [|reflexivity].
    destruct (domain_step_spec exp_name rp row errs log domain) as [log' ->].
    exists log'.
    rewrite domain_errors_all_parsed, Nat.add_0_r
      by (rewrite Hlist; repeat constructor; eauto).
    unfold expected_cell, valid_values. rewrite Hdir, Hlist.
    cbn [omap list_omap]. rewrite valid_value_eq, Hfile, Hparse.
    reflexivity.
Qed.

(** *** The error counter *)

(** C9. The [*errors*] cell is the number of entries of the domain
    directories that exist less the number of those whose [result.txt]
    parsed as a float; an entry without a [result.txt] below it, such as a
    regular file, adds one to the counter. *)
Theorem errors_field_counts_unparsed_entries
    exp_name details result_dir cols model :
  details !! "model_name" = Some (PyStr model) →
  ∃ row log,
    process_experiment exp_name details result_dir cols = Ok (row, log)
    ∧ row !! "*errors*"
      = Some (PyInt
          (Z.of_nat (length (all_entries fs (results_path_of result_dir exp_name model)))
           - Z.of_nat (length (all_parsed py_strip py_float fs
                                 (results_path_of result_dir exp_name model)))))
    ∧ (∀ domain dp rs errs log0 entry,
         isfile fs (result_file dp entry) = false →
         ∃ rs' log',
           task_step exp_name domain dp (rs, errs, log0) entry
           = (rs', S errs, log')).
Proof.
  intros Hmodel.
  destruct (process_experiment_spec exp_name details result_dir cols model Hmodel)
    as (row & log & Hrun & _ & Herrors & _).
  exists row, log. split_and!; [done | |].
  - rewrite Herrors. do 2 f_equal.
    pose proof (errors_entries_parsed (results_path_of result_dir exp_name model)
                  domains) as Hcount.
    unfold all_entries, all_parsed, existing. lia.
  - intros domain dp rs errs log0 entry Hfile.
    rewrite task_step_eq, Hfile. eauto.
Qed.

(** *** The validation of the configuration *)

Lemma check_keys_ok exp_name (d : exp_config) keys :
  check_keys exp_name d keys = Ok tt ↔ Forall (λ key, is_Some (d !! key)) keys.
Proof.
  induction keys as [|key keys IH]; cbn [check_keys].
  - split; [constructor | done].
  - case_bool_decide as Hkey.
    + split; [done|]. intros Hall. apply Forall_cons in Hall as [[v Hv] _]. congruence.
    + rewrite IH, Forall_cons. split; [|tauto].
      intros Hall. split; [|done]. by apply not_eq_None_Some.
Qed.

Lemma check_keys_raise exp_name (d : exp_config) keys e :
  check_keys exp_name d keys = Raise e →
  ∃ before key after,
    keys = before ++ key :: after
    ∧ Forall (λ k, is_Some (d !! k)) before
    ∧ d !! key = None
    ∧ e = ValueError (missing_message key exp_name).
Proof.
  induction keys as [|key keys IH]; cbn [check_keys]; [done|].
  case_bool_decide as Hkey.
  - intros [= <-]. exists [], key, keys. split_and!; [done | constructor | done | done].
  - intros Hrest. destruct (IH Hrest) as (before & key' & after & -> & Hall & Hnone & ->).
    exists (key :: before), key', after. split_and!; [done | | done | done].
    constructor; [by apply not_eq_None_Some | done].
Qed.

Lemma validate_config_cons exp_name d config :
  validate_config ((exp_name, d) :: config)
  = match check_keys exp_name d required_keys with
    | Ok _ => validate_config config
    | Raise e => Raise e
    end.
Proof. reflexivity. Qed.

Lemma check_keys_complete exp_name (d : exp_config) :
  check_keys exp_name d required_keys = Ok tt ↔ complete d.
Proof. apply check_keys_ok. Qed.

Lemma validate_config_raise config e :
  validate_config config = Raise e →
  ∃ pre exp_name d post,
    config = pre ++ (exp_name, d) :: post
    ∧ Forall (λ exp, complete exp.2) pre
    ∧ check_keys exp_name d required_keys = Raise e.
Proof.
  induction config as [|[exp_name d] config IH]; [done|].
  rewrite validate_config_cons.
  destruct (check_keys exp_name d required_keys) as [[]|e'] eqn:Hcheck.
  - intros Hrest. destruct (IH Hrest) as (pre & n & d' & post & -> & Hpre & Hraise).
    exists ((exp_name, d) :: pre), n, d', post. split_and!; [done | | done].
    constructor; [by apply check_keys_complete in Hcheck | done].
  - intros [= <-]. exists [], exp_name, d, config.
    split_and!; [done | constructor | done].
Qed.

Lemma validate_config_fails_iff config :
  (∃ e, validate_config config = Raise e)
  ↔ Exists (λ exp, ¬ complete exp.2) config.
Proof.
  induction config as [|[exp_name d] config IH].
  - split; [by intros [e He] | by intros H%Exists_nil].
  - rewrite validate_config_cons, Exists_cons.
    destruct (check_keys exp_name d required_keys) as [[]|e'] eqn:Hcheck.
    + rewrite IH. apply check_keys_complete in Hcheck. cbn. tauto.
    + split; [|eauto]. intros _. left. cbn.
      intros Hcomplete. apply (check_keys_complete exp_name) in Hcomplete. congruence.
Qed.

(** C3. [validate_config] raises exactly when some record of the
    configuration lacks one of the four required keys. What it raises is
    the [ValueError] of the first record, in the order of the configuration,
    that lacks a key, and of the first key, in the order of the required
    keys, that it lacks; the message names both. The program then logs
    the error and exits with status 1, and has written nothing. *)
Theorem validate_config_first_violation config :
  ((∃ e, validate_config config = Raise e)
   ↔ Exists (λ exp, ¬ complete exp.2) config)
  ∧ (∀ e, validate_config config = Raise e →
      ∃ pre exp_name exp_details post before key after,
        config = pre ++ (exp_name, exp_details) :: post
        ∧ Forall (λ exp, complete exp.2) pre
        ∧ required_keys = before ++ key :: after
        ∧ Forall (λ k, is_Some (exp_details !! k)) before
        ∧ exp_details !! key = None
        ∧ e = ValueError ("Missing '" +:+ key +:+ "' in experiment '"
                          +:+ exp_name +:+ "'")
        ∧ ∀ result_dir output_file schedule w,
            main result_dir config output_file schedule w
            = Some (Exited 1,
                    {| w_log := w_log w
                         ++ [(ERROR, "Configuration error: "
                                     +:+ ("Missing '" +:+ key +:+ "' in experiment '"
                                          +:+ exp_name +:+ "'"))];
                       w_writes := w_writes w |})).
Proof.
  split; [apply validate_config_fails_iff|].
  intros e Hraise.
  destruct (validate_config_raise config e Hraise)
    as (pre & exp_name & d & post & Hconfig & Hpre & Hcheck).
  destruct (check_keys_raise exp_name d required_keys e Hcheck)
    as (before & key & after & Hkeys & Hbefore & Hnone & He).
  exists pre, exp_name, d, post, before, key, after.
  split_and!; try done.
  intros result_dir output_file schedule w. unfold main.
  by rewrite Hraise, He.
Qed.

(** *** The executor *)

Lemma fold_run_job {A B} (f : A → result (B * list log_record)) xs schedule :
  ∀ (futures : list (future B)) log,
  ∃ futures' log',
    fold_left (run_job f xs) schedule (futures, log) = (futures', log')
    ∧ length futures' = length futures
    ∧ (∀ i x, i ∈ schedule → xs !! i = Some x → i < length futures →
              futures' !! i = Some (Some (outcome_of f x)))
    ∧ (∀ i, i ∉ schedule → futures' !! i = futures !! i).
Proof.
  induction schedule as [|j schedule IH]; intros futures log.
  - exists futures, log. split_and!; [done | done | | done].
    intros i x Hi. by apply elem_of_nil in Hi.
  - cbn [fold_left].
    assert (∃ futures1 log1,
              run_job f xs (futures, log) j = (futures1, log1)
              ∧ length futures1 = length futures
              ∧ (∀ x, xs !! j = Some x → j < length futures →
                      futures1 !! j = Some (Some (outcome_of f x)))
              ∧ (∀ i, i ≠ j → futures1 !! i = futures !! i))
      as (futures1 & log1 & -> & Hlen1 & Hat & Hother).
    { unfold run_job. destruct (xs !! j) as [x|] eqn:Hx.
      - destruct (f x) as [[b l]|e] eqn:Hf; eexists _, _;
          (split_and!; [done | by rewrite length_insert | |]).
        + intros ? [= <-] ?. rewrite list_lookup_insert_eq by done.
          unfold outcome_of. by rewrite Hf.
        + intros i ?. by rewrite list_lookup_insert_ne.
        + intros ? [= <-] ?. rewrite list_lookup_insert_eq by done.
          unfold outcome_of. by rewrite Hf.
        + intros i ?. by rewrite list_lookup_insert_ne.
      - exists futures, log. split_and!; done. }
    destruct (IH futures1 log1) as (futures' & log' & -> & Hlen & Hin & Hout).
    exists futures', log'. split_and!; [done | congruence | |].
    + intros i x Hi Hx Hlt. destruct (decide (i ∈ schedule)) as [|Hnot].
      * apply (Hin i x); [done | done | by rewrite Hlen1].
      * apply elem_of_cons in Hi as [->|]; [|done].
        rewrite Hout by done. by apply Hat.
    + intros i Hi. apply not_elem_of_cons in Hi as [Hne Hi].
      rewrite Hout by done. by apply Hother.
Qed.

Lemma gather_outcomes {A B} (g : A → result B) xs :
  gather (map (λ x, Some (g x)) xs) = Some (mapM g xs).
Proof.
  induction xs as [|x xs IH]; [done|].
  cbn [map gather mapM]. destruct (g x) as [b|e]; [|done].
  rewrite IH. cbn. by destruct (mapM g xs).
Qed.

(** Whatever the order in which the jobs run, the results come in the
    order of the items. *)
Lemma executor_map_in_order {A B} (f : A → result (B * list log_record))
    xs schedule log :
  schedule ≡ₚ seq 0 (length xs) →
  ∃ log', executor_map f xs schedule log = (Some (mapM (outcome_of f) xs), log').
Proof.
  intros Hperm. unfold executor_map.
  destruct (fold_run_job f xs schedule (replicate (length xs) None) log)
    as (futures' & log' & -> & Hlen & Hin & _).
  exists log'. f_equal. rewrite <- gather_outcomes. f_equal.
  apply list_eq. intros i. rewrite list_lookup_fmap.
  destruct (xs !! i) as [x|] eqn:Hx; cbn.
  - apply lookup_lt_Some in Hx as Hlt.
    apply (Hin i x); [|done|by rewrite length_replicate].
    rewrite Hperm. apply elem_of_seq. lia.
  - apply lookup_ge_None. apply lookup_ge_None in Hx.
    rewrite Hlen, length_replicate. done.
Qed.

Lemma mapM_result_Forall2 {A B} (g : A → result B) xs ys :
  mapM g xs = Ok ys ↔ Forall2 (λ x y, g x = Ok y) xs ys.
Proof.
  revert ys. induction xs as [|x xs IH]; intros ys; cbn [mapM].
  - split; [by intros [= <-]; constructor | by intros ->%Forall2_nil_inv_l].
  - destruct (g x) as [b|e] eqn:Hx; cbn.
    + destruct (mapM g xs) as [bs|e] eqn:Hxs; cbn; unfold mret, result_ret.
      * split.
        -- intros [= <-]. constructor; [done | by apply IH].
        -- intros (y & ys' & Hy & Hys & ->)%Forall2_cons_inv_l.
           apply IH in Hys. congruence.
      * split; [done|].
        intros (y & ys' & Hy & Hys & ->)%Forall2_cons_inv_l.
        apply IH in Hys. congruence.
    + split; [done|].
      intros (y & ys' & Hy & Hys & ->)%Forall2_cons_inv_l. congruence.
Qed.

(** *** The rows and their rendering *)

Lemma string_app_assoc (s1 s2 s3 : string) :
  (s1 +:+ s2) +:+ s3 = s1 +:+ (s2 +:+ s3).
Proof.
  induction s1 as [|c s1 IH]; [done|].
  change (String c ((s1 +:+ s2) +:+ s3) = String c (s1 +:+ (s2 +:+ s3))).
  by f_equal.
Qed.

Lemma columns_split :
  columns = ["exp_name"; "uia_value"; "som_origin"; "model"] ++ domains ++ ["*errors*"].
Proof. reflexivity. Qed.

Lemma not_domain (col : string) :
  bool_decide (col ∉ domains) = true → col ∉ domains.
Proof. apply bool_decide_eq_true_1. Qed.

(** The cells that do not come from the files. *)
Lemma derived_fields exp_name details result_dir cols model :
  details !! "model_name" = Some (PyStr model) →
  ∃ row log,
    process_experiment exp_name details result_dir cols = Ok (row, log)
    ∧ row !! "exp_name" = Some (PyStr exp_name)
    ∧ (details !! "a11y_backend" = Some (PyStr "uia") →
       row !! "uia_value" = Some (PyStr "✅"))
    ∧ (details !! "a11y_backend" ≠ Some (PyStr "uia") →
       row !! "uia_value" = Some (PyStr "❌"))
    ∧ row !! "som_origin" = Some (default (PyStr "N/A") (details !! "som_origin"))
    ∧ row !! "model" = Some (PyStr model).
Proof.
  intros Hmodel.
  destruct (process_experiment_spec exp_name details result_dir cols model Hmodel)
    as (row & log & Hrun & _ & _ & Hother).
  exists row, log. split; [done|].
  rewrite !Hother by (try (apply not_domain; by vm_compute); done).
  unfold initial_row, dict_get. split_and!; [| intros Huia | intros Hne | |];
    lookup_row; [done | | | done | by rewrite Hmodel].
  - unfold uia_glyph, dict_get. by rewrite Huia.
  - unfold uia_glyph, dict_get.
    destruct (details !! "a11y_backend") as [[]|]; try done.
    cbn. case_bool_decide; [congruence | done].
Qed.

Lemma process_experiment_columns exp_name details result_dir model :
  details !! "model_name" = Some (PyStr model) →
  ∃ row log,
    process_experiment exp_name details result_dir columns = Ok (row, log)
    ∧ row !! "exp_name" = Some (PyStr exp_name)
    ∧ Forall (λ col, is_Some (row !! col)) columns.
Proof.
  intros Hmodel.
  destruct (derived_fields exp_name details result_dir columns model Hmodel)
    as (row & log & Hrun & Hname & Huia & Hnot_uia & Horigin & Hmod).
  destruct (process_experiment_spec exp_name details result_dir columns model Hmodel)
    as (row' & log' & Hrun' & Hcells & Herrors & Hother).
  rewrite Hrun in Hrun'. injection Hrun' as <- <-.
  exists row, log. split_and!; [done | done |].
  rewrite columns_split, !Forall_app. split_and!.
  - repeat constructor; eauto.
    rewrite Hother by (try (apply not_domain; by vm_compute); done).
    unfold initial_row. lookup_row. eauto.
  - apply Forall_forall. intros d Hd. rewrite (Hcells d Hd). eauto.
  - repeat constructor. eauto.
Qed.

Lemma process_experiment_has_model exp_name details result_dir cols row log :
  process_experiment exp_name details result_dir cols = Ok (row, log) →
  has_model (exp_name, details).
Proof.
  unfold process_experiment, getitem, has_model. cbn [snd].
  destruct (details !! "model_name") as [[| | | |model]|]; try done.
  eauto.
Qed.

Lemma mapM_result_total {A B} (g : A → result B) xs :
  Forall (λ x, ∃ y, g x = Ok y) xs →
  ∃ ys, mapM g xs = Ok ys ∧ length ys = length xs.
Proof.
  induction 1 as [|x xs [y Hy] _ (ys & Hys & Hlen)].
  - by exists [].
  - exists (y :: ys). cbn [mapM]. rewrite Hy, Hys. cbn. by rewrite Hlen.
Qed.

(** A row that has all the columns is rendered as a line that starts with
    the identifier of its experiment. *)
Lemma render_row_line row exp_name :
  row !! "exp_name" = Some (PyStr exp_name) →
  Forall (λ col, is_Some (row !! col)) columns →
  ∃ rest, render_row row = Ok ("| " +:+ exp_name +:+ " | " +:+ rest).
Proof.
  intros Hname Hall. unfold render_row.
  change columns with ("exp_name" :: tail columns) in *.
  apply Forall_cons in Hall as [_ Hall].
  destruct (mapM_result_total (render_cell row) (tail columns)) as (cells & Hcells & Hlen).
  { eapply Forall_impl; [exact Hall|]. intros col [v Hv].
    unfold render_cell, getitem. rewrite Hv. cbn. eauto. }
  cbn [mapM]. rewrite Hcells.
  unfold render_cell at 1, getitem. rewrite Hname. cbn [mbind result_bind py_str].
  destruct cells as [|cell cells]; [done|].
  exists (String.concat " | " (cell :: cells) +:+ " |" +:+ newline).
  cbn [mret result_ret mbind result_bind String.concat].
  by rewrite !string_app_assoc.
Qed.

Lemma write_rows_lines rows lines :
  Forall2 (λ row line, render_row row = Ok line) rows lines →
  ∀ output, write_rows output rows = Ok (fold_left String.append lines output).
Proof.
  induction 1 as [|row line rows lines Hline _ IH]; intros output; [done|].
  cbn [write_rows fold_left]. rewrite Hline. cbn. apply IH.
Qed.

(** The lines of the experiments all of which have a model. *)
Lemma rows_render result_dir config rows :
  Forall2 (λ exp row,
             outcome_of (λ exp, process_experiment exp.1 exp.2 result_dir columns) exp
             = Ok row) config rows →
  Forall has_model config
  ∧ ∃ lines,
      Forall2 (λ row line, render_row row = Ok line) rows lines
      ∧ Forall2 (λ exp line, ∃ row l rest,
                   process_experiment exp.1 exp.2 result_dir columns = Ok (row, l)
                   ∧ render_row row = Ok line
                   ∧ line = "| " +:+ exp.1 +:+ " | " +:+ rest) config lines.
Proof.
  induction 1 as [|[exp_name details] row config rows Hrow _ (Hall & lines & Hlines & Hexps)].
  - split; [constructor|]. exists []. split; constructor.
  - unfold outcome_of in Hrow. cbn [fst snd] in Hrow.
    destruct (process_experiment exp_name details result_dir columns)
      as [[row' l]|e] eqn:Hrun; [|done].
    injection Hrow as ->.
    pose proof (process_experiment_has_model _ _ _ _ _ _ Hrun) as [model Hmodel].
    destruct (process_experiment_columns exp_name details result_dir model Hmodel)
      as (row' & l' & Hrun' & Hname & Hcols).
    cbn [snd] in Hmodel. rewrite Hrun in Hrun'. injection Hrun' as <- <-.
    destruct (render_row_line row exp_name Hname Hcols) as [rest Hline].
    split; [constructor; [by exists model | done]|].
    exists (("| " +:+ exp_name +:+ " | " +:+ rest) :: lines).
    split; constructor; try done.
    exists row, l, rest. cbn [fst snd]. by rewrite Hrun.
Qed.

(** *** The table *)

(** C4. Whatever the order in which the workers complete the experiments,
    [get_results_from_json] returns; when every record has a string as
    its model it writes the header, the separator and then one line per
    experiment, in the order of the configuration: the line of an
    experiment is the rendering of the row [process_experiment] returns for
    it and starts with its identifier. Otherwise it raises and writes
    nothing. *)
Theorem rows_in_configuration_order
    result_dir config output_file schedule w :
  schedule ≡ₚ seq 0 (length config) →
  (Forall has_model config
   ∧ ∃ lines log,
       Forall2 (λ exp line, ∃ row l rest,
                  process_experiment exp.1 exp.2 result_dir columns = Ok (row, l)
                  ∧ render_row row = Ok line
                  ∧ line = "| " +:+ exp.1 +:+ " | " +:+ rest) config lines
       ∧ get_results_from_json result_dir config output_file schedule w
         = Some (Ok tt,
                 {| w_log := log;
                    w_writes := w_writes w
                      ++ [(output_file,
                           fold_left String.append lines (header +:+ separator))] |}))
  ∨ (¬ Forall has_model config
     ∧ ∃ e log,
         get_results_from_json result_dir config output_file schedule w
         = Some (Raise e, {| w_log := log; w_writes := w_writes w |})).
Proof.
  intros Hperm. unfold get_results_from_json.
  destruct (executor_map_in_order
              (λ exp, process_experiment exp.1 exp.2 result_dir columns)
              config schedule (w_log w) Hperm) as [log ->].
  destruct (mapM _ config) as [rows|e] eqn:Hrows.
  - left. apply mapM_result_Forall2 in Hrows.
    destruct (rows_render result_dir config rows Hrows)
      as (Hall & lines & Hlines & Hexps).
    split; [done|]. eexists lines, _. split; [done|].
    by rewrite (write_rows_lines rows lines Hlines).
  - right. split; [|eauto].
    intros Hall.
    destruct (mapM_result_total
                (outcome_of (λ exp, process_experiment exp.1 exp.2 result_dir columns))
                config) as (rows & Hok & _); [|congruence].
    eapply Forall_impl; [exact Hall|]. intros [exp_name details] [model Hmodel].
    destruct (process_experiment_columns exp_name details result_dir model Hmodel)
      as (row & l & Hrun & _).
    exists row. unfold outcome_of. cbn [fst snd]. by rewrite Hrun.
Qed.

Lemma fold_run_job_nil {A B} (f : A → result (B * list log_record)) schedule
    (st : list (future B) * list log_record) :
  fold_left (run_job f []) schedule st = st.
Proof.
  induction schedule as [|i schedule IH]; [done|].
  cbn [fold_left]. by destruct st.
Qed.

(** C10. For the empty configuration [get_results_from_json] succeeds and
    makes one write, of the header row, with the 17 column names, and of
    the separator row. *)
Theorem empty_configuration_table result_dir output_file schedule w :
  get_results_from_json result_dir [] output_file schedule w
  = Some (Ok tt,
          {| w_log := w_log w ++ [(INFO, "Results table saved to " +:+ output_file)];
             w_writes := w_writes w
               ++ [(output_file,
                    "| exp_name | uia_value | som_origin | model | chrome | libreoffice_calc | libreoffice_writer | vlc | vs_code | settings | windows_calc | clock | msedge | file_explorer | microsoft_paint | notepad | *errors* |"
                    +:+ newline
                    +:+ "|--- | --- | --- | --- | --- | --- | --- | --- | --- | --- | --- | --- | --- | --- | --- | --- | ---|"
                    +:+ newline)] |})
  ∧ length columns = 17.
Proof.
  split; [|reflexivity].
  unfold get_results_from_json, executor_map.
  by rewrite fold_run_job_nil.
Qed.

(** *** A record without a model *)

(** C7, where the code departs from it. For a record without
    [model_name] the row gets the placeholder as its model, and then
    [process_experiment] raises [KeyError]: it reads the model again, to
    build the path of the results, without a default. *)
Theorem missing_model_raises result_dir cols :
  initial_row "expA" Sample.no_model cols !! "model" = Some (PyStr "Unknown")
  ∧ process_experiment "expA" Sample.no_model result_dir cols
    = Raise (KeyError "model_name").
Proof.
  assert (Hnone : Sample.no_model !! "model_name" = None) by reflexivity.
  split.
  - unfold initial_row, dict_get. lookup_row. by rewrite Hnone.
  - unfold process_experiment, getitem. by rewrite Hnone.
Qed.

End Properties.

(** ** The script on the sample tree *)

Lemma domain_aggregate_is_percentage_witness :
  ∃ row log,
    Sample.process "expA" Sample.expA "results" columns = Ok (row, log)
    ∧ row !! "vs_code" = Some (PyFloat 75).
Proof.
  destruct (domain_aggregate_is_percentage Sample.strip Sample.float_of Sample.fs
              "expA" Sample.expA "results" columns "gpt-4" "vs_code")
    as (row & log & Hrun & Hcell & _).
  - reflexivity.
  - by_evaluation.
  - by vm_compute.
  - by vm_compute.
  - exists row, log. split; [exact Hrun|]. rewrite Hcell. by vm_compute.
Defined.

(** C1 as it is stated fails: the valid values 50.0 and 100.0 give the
    aggregate 7500.0, not 75.0. *)
Lemma aggregate_of_50_100_is_not_75 :
  valid_values Sample.strip Sample.float_of Sample.fs
    (domain_dir "results" "expA" "gpt-4" "chrome") = [50%float; 100%float]
  ∧ cell (Sample.process "expA" Sample.expA "results" columns) "chrome"
    = Some (PyFloat 7500)
  ∧ cell (Sample.process "expA" Sample.expA "results" columns) "chrome"
    ≠ Some (PyFloat 75).
Proof.
  assert (Hcell : cell (Sample.process "expA" Sample.expA "results" columns) "chrome"
                  = Some (PyFloat 7500)) by (by vm_compute).
  split_and!; [by vm_compute | exact Hcell |].
  rewrite Hcell. intros H.
  assert (Heq : 7500%float = 75%float) by congruence.
  apply (f_equal (PrimFloat.eqb 7500)) in Heq. by vm_compute in Heq.
Qed.

Lemma task_policy_witness :
  ∃ log',
    domain_step Sample.strip Sample.float_of Sample.fs "expA" Sample.root
                (∅, 0, []) "clock"
    = (<["clock" := PyFloat 100]> ∅, 2, log').
Proof.
  destruct (task_policy Sample.strip Sample.float_of Sample.fs
              "expA" "clock" "" [] 0 [] "") as (_ & _ & _ & Hdomain).
  destruct (Hdomain Sample.root ∅) as [log' ->]; [by vm_compute|].
  exists log'. repeat f_equal; by vm_compute.
Defined.

(** C2 as it is stated fails: a [result.txt] that reads "nan" exists and
    parses as a float, which is recorded, yet no value enters the mean. *)
Lemma parsed_nan_is_out_of_the_mean :
  isfile Sample.fs (result_file (domain_dir "results" "expA" "gpt-4" "vlc") "a") = true
  ∧ parse_result Sample.strip Sample.float_of Sample.fs
      (result_file (domain_dir "results" "expA" "gpt-4" "vlc") "a") = Some nan
  ∧ fold_left (task_step Sample.strip Sample.float_of Sample.fs "expA" "vlc"
                 (domain_dir "results" "expA" "gpt-4" "vlc"))
              (listdir Sample.fs (domain_dir "results" "expA" "gpt-4" "vlc"))
              ([], 0, [])
    = ([nan; nan], 0, [])
  ∧ valid_results [nan; nan] = []
  ∧ cell (Sample.process "expA" Sample.expA "results" columns) "vlc" = Some PyNone.
Proof. split_and!; by vm_compute. Qed.

Lemma validate_config_first_violation_witness :
  validate_config Sample.bad_config
  = Raise (ValueError "Missing 'som_origin' in experiment 'expC'")
  ∧ ∀ result_dir output_file schedule w,
      main Sample.strip Sample.float_of Sample.str_of_float Sample.fs
           result_dir Sample.bad_config output_file schedule w
      = Some (Exited 1,
              {| w_log := w_log w
                   ++ [(ERROR, "Configuration error: Missing 'som_origin' in experiment 'expC'")];
                 w_writes := w_writes w |}).
Proof.
  assert (Hraise : validate_config Sample.bad_config
                   = Raise (ValueError "Missing 'som_origin' in experiment 'expC'"))
    by (by vm_compute).
  split; [exact Hraise|].
  destruct (proj2 (validate_config_first_violation Sample.strip Sample.float_of
                     Sample.str_of_float Sample.fs Sample.bad_config) _ Hraise)
    as (pre & exp_name & details & post & before & key & after
        & _ & _ & _ & _ & _ & He & Hmain).
  assert (Hmessage : "Missing 'som_origin' in experiment 'expC'"
                     = "Missing '" +:+ key +:+ "' in experiment '" +:+ exp_name +:+ "'")
    by congruence.
  intros result_dir output_file schedule w.
  by rewrite Hmain, <- Hmessage.
Defined.

Lemma rows_in_configuration_order_witness :
  ∃ lines log,
    length lines = 2
    ∧ get_results_from_json Sample.strip Sample.float_of Sample.str_of_float Sample.fs
        "results" Sample.config "out.md" [1; 0] Sample.world0
      = Some (Ok tt,
              {| w_log := log;
                 w_writes := [("out.md",
                               fold_left String.append lines (header +:+ separator))] |}).
Proof.
  destruct (rows_in_configuration_order Sample.strip Sample.float_of
              Sample.str_of_float Sample.fs
              "results" Sample.config "out.md" [1; 0] Sample.world0)
    as [(_ & lines & log & Hlines & Hrun) | (Hnot & _)].
  - apply perm_swap.
  - exists lines, log. split; [|exact Hrun].
    by apply Forall2_length in Hlines.
  - destruct Hnot. repeat constructor; eexists; reflexivity.
Defined.

Lemma no_valid_value_absent_aggregate_witness :
  ∃ row log,
    Sample.process "expA" Sample.expA "results" columns = Ok (row, log)
    ∧ row !! "settings" = Some PyNone
    ∧ render_cell Sample.str_of_float row "settings" = Ok "".
Proof.
  destruct (no_valid_value_absent_aggregate Sample.strip Sample.float_of
              Sample.str_of_float Sample.fs
              "expA" Sample.expA "results" columns "gpt-4" "settings")
    as (row & log & Hrun & Hcell & _ & Hrender & _).
  - reflexivity.
  - by_evaluation.
  - by vm_compute.
  - by vm_compute.
  - exists row, log. split; [exact Hrun|]. split; [exact Hcell | exact Hrender].
Defined.

Lemma missing_directory_absent_aggregate_witness :
  ∃ row log,
    Sample.process "expA" Sample.expA "results" columns = Ok (row, log)
    ∧ row !! "libreoffice_calc" = Some PyNone.
Proof.
  destruct (missing_directory_absent_aggregate Sample.strip Sample.float_of Sample.fs
              "expA" Sample.expA "results" columns "gpt-4" "libreoffice_calc")
    as (row & log & Hrun & Hcell & _).
  - reflexivity.
  - by_evaluation.
  - by vm_compute.
  - exists row, log. split; [exact Hrun | exact Hcell].
Defined.

Lemma nan_and_out_of_range_results_witness :
  (∃ log', domain_step Sample.strip Sample.float_of Sample.fs "expA" Sample.root
                       (∅, 0, []) "vlc"
           = (<["vlc" := PyNone]> ∅, 0, log'))
  ∧ (∃ log', domain_step Sample.strip Sample.float_of Sample.fs "expA" Sample.root
                         (∅, 0, []) "notepad"
             = (<["notepad" := PyFloat 200]> ∅, 0, log')).
Proof.
  split.
  - destruct (nan_and_out_of_range_results Sample.strip Sample.float_of Sample.fs
                "expA" Sample.root ∅ 0 [] "vlc") as (_ & Hnan & _);
      [by vm_compute|].
    apply Hnan.
    assert (Hentries : listdir Sample.fs (os_path_join Sample.root ["vlc"]) = ["a"; "b"])
      by (by vm_compute).
    rewrite Hentries.
    repeat apply Forall_cons_2; [| |apply Forall_nil_2];
      (split; [by vm_compute | exists nan; split; by vm_compute]).
  - destruct (nan_and_out_of_range_results Sample.strip Sample.float_of Sample.fs
                "expA" Sample.root ∅ 0 [] "notepad") as (_ & _ & Htwo);
      [by vm_compute|].
    destruct (Htwo "t") as [Hstep _]; [by vm_compute | by vm_compute | by vm_compute |].
    exact Hstep.
Defined.

Lemma errors_field_counts_unparsed_entries_witness :
  ∃ row log,
    Sample.process "expA" Sample.expA "results" columns = Ok (row, log)
    ∧ row !! "*errors*" = Some (PyInt 3).
Proof.
  destruct (errors_field_counts_unparsed_entries Sample.strip Sample.float_of Sample.fs
              "expA" Sample.expA "results" columns "gpt-4")
    as (row & log & Hrun & Herrors & _); [reflexivity|].
  exists row, log. split; [exact Hrun|]. rewrite Herrors. by vm_compute.
Defined.

(** ** Further properties of the script *)

Section More.

Variable py_strip : string → string.
Variable py_float : string → option float.
Variable py_str_float : float → string.
Variable fs : filesystem.

Local Abbreviation parse_result := (parse_result py_strip py_float fs).
Local Abbreviation task_step := (task_step py_strip py_float fs).
Local Abbreviation domain_step := (domain_step py_strip py_float fs).
Local Abbreviation process_experiment := (process_experiment py_strip py_float fs).
Local Abbreviation expected_cell := (expected_cell py_strip py_float fs).
Local Abbreviation domain_errors := (domain_errors py_strip py_float fs).
Local Abbreviation task_log := (task_log py_strip py_float fs).
Local Abbreviation domain_log := (domain_log py_strip py_float fs).
Local Abbreviation experiment_log := (experiment_log py_strip py_float fs).
Local Abbreviation cell_text := (cell_text py_str_float).
Local Abbreviation render_cell := (render_cell py_str_float).
Local Abbreviation render_row := (render_row py_str_float).
Local Abbreviation get_results_from_json :=
  (get_results_from_json py_strip py_float py_str_float fs).
Local Abbreviation main := (main py_strip py_float py_str_float fs).

(** *** The log of an experiment *)

Lemma task_step_log exp_name domain dp rs errs log task :
  ∃ rs',
    task_step exp_name domain dp (rs, errs, log) task
    = (rs', errs + length (task_log exp_name domain dp task),
       log ++ task_log exp_name domain dp task).
Proof.
  rewrite task_step_eq. unfold task_log.
  destruct (isfile fs (result_file dp task));
    [destruct (parse_result (result_file dp task))|]; eexists; cbn [length].
  - by rewrite Nat.add_0_r, app_nil_r.
  - by rewrite Nat.add_1_r.
  - by rewrite Nat.add_1_r.
Qed.

Lemma fold_task_step_log exp_name domain dp tasks : ∀ rs errs log,
  ∃ rs',
    fold_left (task_step exp_name domain dp) tasks (rs, errs, log)
    = (rs', errs + length (tasks ≫= task_log exp_name domain dp),
       log ++ (tasks ≫= task_log exp_name domain dp)).
Proof.
  induction tasks as [|task tasks IH]; intros rs errs log.
  - exists rs. cbn. by rewrite Nat.add_0_r, app_nil_r.
  - cbn [fold_left].
    destruct (task_step_log exp_name domain dp rs errs log task) as [rs1 ->].
    destruct (IH rs1 (errs + length (task_log exp_name domain dp task))
                 (log ++ task_log exp_name domain dp task)) as [rs' ->].
    exists rs'. rewrite bind_cons, length_app, <- app_assoc.
    do 2 f_equal. lia.
Qed.

Lemma domain_step_log exp_name rp row errs log domain :
  domain_step exp_name rp (row, errs, log) domain
  = (<[domain := expected_cell (os_path_join rp [domain])]> row,
     errs + length (domain_log exp_name rp domain),
     log ++ domain_log exp_name rp domain).
Proof.
  unfold domain_step, domain_log, expected_cell.
  destruct (isdir fs (os_path_join rp [domain])).
  - destruct (fold_task_step py_strip py_float fs exp_name domain
                (os_path_join rp [domain])
                (listdir fs (os_path_join rp [domain])) [] errs log)
      as (rs' & log' & Hfold & _ & Hvalid).
    destruct (fold_task_step_log exp_name domain (os_path_join rp [domain])
                (listdir fs (os_path_join rp [domain])) [] errs log)
      as [rs2 Hfold2].
    rewrite Hfold2. rewrite Hfold in Hfold2. injection Hfold2 as -> _ _.
    by rewrite domain_aggregate_valid, Hvalid.
  - cbn. by rewrite Nat.add_0_r, app_nil_r.
Qed.

Lemma fold_domain_step_log exp_name rp ds : ∀ row errs log,
  ∃ row',
    fold_left (domain_step exp_name rp) ds (row, errs, log)
    = (row', errs + length (ds ≫= domain_log exp_name rp),
       log ++ (ds ≫= domain_log exp_name rp)).
Proof.
  induction ds as [|d ds IH]; intros row errs log.
  - exists row. cbn. by rewrite Nat.add_0_r, app_nil_r.
  - cbn [fold_left]. rewrite domain_step_log.
    destruct (IH (<[d := expected_cell (os_path_join rp [d])]> row)
                 (errs + length (domain_log exp_name rp d))
                 (log ++ domain_log exp_name rp d)) as [row' ->].
    exists row'. rewrite bind_cons, length_app, <- app_assoc.
    do 2 f_equal. lia.
Qed.

(** What [process_experiment] returns for a record whose model is a
    string: the cells of the row and the log. *)
Lemma process_experiment_log exp_name details result_dir cols model :
  details !! "model_name" = Some (PyStr model) →
  ∃ row,
    process_experiment exp_name details result_dir cols
    = Ok (row, experiment_log exp_name (results_path_of result_dir exp_name model))
    ∧ row !! "*errors*"
      = Some (PyInt (Z.of_nat (length
          (experiment_log exp_name (results_path_of result_dir exp_name model)))))
    ∧ (∀ d, d ∈ domains →
         row !! d = Some (expected_cell (domain_dir result_dir exp_name model d)))
    ∧ (∀ k, k ∉ domains → k ≠ "*errors*" →
         row !! k = initial_row exp_name details cols !! k).
Proof.
  intros Hmodel.
  destruct (process_experiment_spec py_strip py_float fs
              exp_name details result_dir cols model Hmodel)
    as (row & log & Hrun & Hcells & _ & Hother).
  exists row. revert Hrun. unfold process_experiment, getitem. rewrite Hmodel.
  cbn [mbind result_bind as_path].
  destruct (fold_domain_step_log exp_name (results_path_of result_dir exp_name model)
              domains (initial_row exp_name details cols) 0 []) as [row' ->].
  intros [= <- <-]. split_and!; [done | | done | done].
  by rewrite lookup_insert_eq.
Qed.

(** X1. Every increment of the error counter comes with one log record:
    the [*errors*] cell is the number of records the experiment logged,
    and each record is the warning of an entry, of an existing domain
    directory, that has no [result.txt], or the error of an entry whose
    [result.txt] does not parse; it names the experiment, the domain and
    the entry. *)
Theorem log_accounts_for_errors exp_name details result_dir cols model :
  details !! "model_name" = Some (PyStr model) →
  ∃ row log,
    process_experiment exp_name details result_dir cols = Ok (row, log)
    ∧ row !! "*errors*" = Some (PyInt (Z.of_nat (length log)))
    ∧ ∀ r, r ∈ log →
        ∃ domain task,
          domain ∈ domains
          ∧ isdir fs (domain_dir result_dir exp_name model domain) = true
          ∧ task ∈ listdir fs (domain_dir result_dir exp_name model domain)
          ∧ ((isfile fs (result_file (domain_dir result_dir exp_name model domain) task)
              = false
              ∧ r = (WARNING, "Missing result.txt in " +:+ exp_name +:+ ", "
                              +:+ domain +:+ "/" +:+ task))
             ∨ (isfile fs (result_file (domain_dir result_dir exp_name model domain) task)
                = true
                ∧ parse_result
                    (result_file (domain_dir result_dir exp_name model domain) task)
                  = None
                ∧ r = (ERROR, "Invalid result.txt in " +:+ exp_name +:+ ", "
                              +:+ domain +:+ "/" +:+ task))).
Proof.
  intros Hmodel.
  destruct (process_experiment_log exp_name details result_dir cols model Hmodel)
    as (row & Hrun & Herrors & _).
  eexists row, _. split_and!; [exact Hrun | exact Herrors |].
  intros r (domain & Hr & Hdomain)%list_elem_of_bind.
  exists domain. unfold domain_log in Hr. fold (domain_dir result_dir exp_name model domain) in Hr.
  destruct (isdir fs (domain_dir result_dir exp_name model domain)) eqn:Hdir;
    [|by apply elem_of_nil in Hr].
  apply list_elem_of_bind in Hr as (task & Hr & Htask).
  exists task. split_and!; [done | done | done |].
  unfold task_log in Hr.
  destruct (isfile fs (result_file (domain_dir result_dir exp_name model domain) task));
    [destruct (parse_result
                 (result_file (domain_dir result_dir exp_name model domain) task))|].
  - by apply elem_of_nil in Hr.
  - right. apply list_elem_of_singleton in Hr. done.
  - left. apply list_elem_of_singleton in Hr. done.
Qed.

(** X2. When none of the twelve domain directories exists, for instance
    because the experiment has no directory under the results root, the
    row has no aggregate at all, its error count is 0 and nothing is
    logged. *)
Theorem no_directory_is_silent exp_name details result_dir cols model :
  details !! "model_name" = Some (PyStr model) →
  (∀ domain, domain ∈ domains →
     isdir fs (domain_dir result_dir exp_name model domain) = false) →
  ∃ row,
    process_experiment exp_name details result_dir cols = Ok (row, [])
    ∧ row !! "*errors*" = Some (PyInt 0)
    ∧ ∀ domain, domain ∈ domains → row !! domain = Some PyNone.
Proof.
  intros Hmodel Hnone.
  destruct (process_experiment_log exp_name details result_dir cols model Hmodel)
    as (row & Hrun & Herrors & Hcells & _).
  assert (Hlog : experiment_log exp_name (results_path_of result_dir exp_name model) = []).
  { unfold experiment_log. generalize Hnone. generalize domains.
    induction l as [|d ds IH]; intros Hds; [done|].
    rewrite bind_cons, IH by (intros; apply Hds; by right).
    unfold domain_log. fold (domain_dir result_dir exp_name model d).
    by rewrite Hds by left. }
  rewrite Hlog in Hrun, Herrors.
  exists row. split_and!; [done | done |].
  intros domain Hdomain. rewrite (Hcells domain Hdomain).
  f_equal. apply expected_cell_no_dir. by apply Hnone.
Qed.

(** *** The fields of the record that are read *)

(** X3. [process_experiment] reads three fields of the record only:
    records that agree on [a11y_backend], [som_origin] and [model_name]
    give the same outcome. The [exp_name] field, which the validation
    requires, is never read: the name in the row is the key of the
    configuration. *)
Theorem only_three_fields_are_read
    exp_name (details1 details2 : exp_config) result_dir cols :
  details1 !! "a11y_backend" = details2 !! "a11y_backend" →
  details1 !! "som_origin" = details2 !! "som_origin" →
  details1 !! "model_name" = details2 !! "model_name" →
  process_experiment exp_name details1 result_dir cols
  = process_experiment exp_name details2 result_dir cols.
Proof.
  intros Hbackend Horigin Hmodel.
  unfold process_experiment, initial_row, uia_glyph, dict_get, getitem.
  by rewrite Hbackend, Horigin, Hmodel.
Qed.

(** X4. For a record whose model is a string, the cells that do not come
    from the files: the name is the key of the configuration; the glyph is
    the check mark exactly when [a11y_backend] is the string "uia"; the
    origin is rendered as "N/A" when the record has none, as the empty
    string when it is [null], and as it is otherwise; the model is the
    model. *)
Theorem derived_cells exp_name details result_dir cols model :
  details !! "model_name" = Some (PyStr model) →
  ∃ row log,
    process_experiment exp_name details result_dir cols = Ok (row, log)
    ∧ row !! "exp_name" = Some (PyStr exp_name)
    ∧ (row !! "uia_value" = Some (PyStr "✅")
       ↔ details !! "a11y_backend" = Some (PyStr "uia"))
    ∧ (row !! "uia_value" = Some (PyStr "❌")
       ↔ details !! "a11y_backend" ≠ Some (PyStr "uia"))
    ∧ render_cell row "som_origin"
      = Ok (match details !! "som_origin" with
            | None => "N/A"
            | Some v => cell_text v
            end)
    ∧ render_cell row "model" = Ok model.
Proof.
  intros Hmodel.
  destruct (derived_fields py_strip py_float fs
              exp_name details result_dir cols model Hmodel)
    as (row & log & Hrun & Hname & Huia & Hnot_uia & Horigin & Hmod).
  exists row, log. split_and!; [done | done | | | |].
  - split; [|done]. intros Hglyph.
    destruct (details !! "a11y_backend") as [[| | | |s]|] eqn:Hbackend;
      try (rewrite Hnot_uia in Hglyph by done; done).
    destruct (decide (s = "uia")) as [->|Hne]; [done|].
    rewrite Hnot_uia in Hglyph by congruence. done.
  - split; [|done]. intros Hglyph Hbackend.
    rewrite Huia in Hglyph by done. done.
  - unfold render_cell, getitem. rewrite Horigin.
    by destruct (details !! "som_origin") as [[]|].
  - unfold render_cell, getitem. by rewrite Hmod.
Qed.

(** *** The line of an experiment *)

Lemma render_cell_lookup row col v :
  row !! col = Some v → render_cell row col = Ok (cell_text v).
Proof. intros Hv. unfold render_cell, getitem. rewrite Hv. by destruct v. Qed.

(** X5. The line of an experiment whose model is a string has 17 cells,
    between "| " and " |" and separated by " | ": the name, the glyph, the
    origin, the model, the twelve aggregates, each empty when absent, in
    the order of the domains, and the error count in decimal. No cell is
    escaped. *)
Theorem line_of_experiment exp_name details result_dir model :
  details !! "model_name" = Some (PyStr model) →
  ∃ row log,
    process_experiment exp_name details result_dir columns = Ok (row, log)
    ∧ render_row row
      = Ok ("| "
            +:+ String.concat " | "
                  (expected_cells py_strip py_float py_str_float fs
                     exp_name details result_dir model)
            +:+ " |" +:+ newline)
    ∧ length (expected_cells py_strip py_float py_str_float fs
                exp_name details result_dir model) = 17.
Proof.
  intros Hmodel.
  destruct (process_experiment_log exp_name details result_dir columns model Hmodel)
    as (row & Hrun & Herrors & Hcells & Hother).
  eexists row, _. split_and!; [exact Hrun | | reflexivity].
  unfold render_row.
  assert (Hmap : mapM (render_cell row) columns
                 = Ok (expected_cells py_strip py_float py_str_float fs
                         exp_name details result_dir model)).
  { apply mapM_result_Forall2. rewrite columns_split. unfold expected_cells.
    apply Forall2_app; [|apply Forall2_app].
    - repeat constructor;
        (erewrite render_cell_lookup;
         [|rewrite Hother by (try (apply not_domain; by vm_compute); done);
           unfold initial_row; lookup_row; reflexivity]);
        try done.
      unfold dict_get. by rewrite Hmodel.
    - apply Forall2_fmap_r, Forall_Forall2_diag, Forall_forall.
      intros d Hd. apply render_cell_lookup. by apply Hcells.
    - repeat constructor. by rewrite (render_cell_lookup _ _ _ Herrors). }
  by rewrite Hmap.
Qed.

(** *** The outcomes of the table builder and of the program *)

Lemma mapM_result_first_raise {A B} (g : A → result B) xs e :
  mapM g xs = Raise e →
  ∃ pre x post,
    xs = pre ++ x :: post
    ∧ Forall (λ y, ∃ b, g y = Ok b) pre
    ∧ g x = Raise e.
Proof.
  induction xs as [|x xs IH]; [done|]. cbn [mapM].
  destruct (g x) as [b|e'] eqn:Hx; cbn.
  - destruct (mapM g xs) as [bs|e'] eqn:Hxs; cbn; [done|].
    intros [= ->]. destruct (IH eq_refl) as (pre & y & post & -> & Hpre & Hy).
    exists (x :: pre), y, post. split_and!; [done | | done].
    constructor; eauto.
  - intros [= ->]. exists [], x, xs. split_and!; [done | constructor | done].
Qed.

Lemma mapM_result_raise_at {A B} (g : A → result B) pre x post e :
  Forall (λ y, ∃ b, g y = Ok b) pre →
  g x = Raise e →
  mapM g (pre ++ x :: post) = Raise e.
Proof.
  intros Hpre Hx. induction Hpre as [|y pre [b Hy] _ IH]; cbn [app mapM].
  - by rewrite Hx.
  - by rewrite Hy, IH.
Qed.

(** What makes [process_experiment] raise. *)
Lemma process_experiment_raises exp_name (details : exp_config) result_dir cols e :
  process_experiment exp_name details result_dir cols = Raise e →
  (details !! "model_name" = None ∧ e = KeyError "model_name")
  ∨ (is_Some (details !! "model_name") ∧ ¬ has_model (exp_name, details)
     ∧ e = TypeError).
Proof.
  unfold process_experiment, getitem, has_model. cbn [snd].
  destruct (details !! "model_name") as [[| | | |model]|] eqn:Hmodel;
    cbn [mbind result_bind as_path].
  1-4: intros [= <-]; right; split_and!; [eauto | by intros [? ?] | done].
  - destruct (fold_left _ _ _) as [[? ?] ?]. done.
  - intros [= <-]. by left.
Qed.

Lemma outcome_of_has_model exp_name details result_dir :
  has_model (exp_name, details) →
  ∃ row,
    outcome_of (λ exp, process_experiment exp.1 exp.2 result_dir columns)
               (exp_name, details) = Ok row.
Proof.
  intros [model Hmodel].
  destruct (process_experiment_columns py_strip py_float fs
              exp_name details result_dir model Hmodel)
    as (row & l & Hrun & _).
  exists row. unfold outcome_of. cbn [fst snd]. by rewrite Hrun.
Qed.

(** The two ways [get_results_from_json] ends, whatever the order in which
    the workers complete. *)
Lemma get_results_cases result_dir config output_file schedule w :
  schedule ≡ₚ seq 0 (length config) →
  ∃ log,
    (Forall has_model config
     ∧ ∃ text,
         get_results_from_json result_dir config output_file schedule w
         = Some (Ok tt,
                 {| w_log := log ++ [(INFO, "Results table saved to " +:+ output_file)];
                    w_writes := w_writes w ++ [(output_file, text)] |}))
    ∨ (∃ pre exp post e,
         config = pre ++ exp :: post
         ∧ Forall has_model pre
         ∧ process_experiment exp.1 exp.2 result_dir columns = Raise e
         ∧ get_results_from_json result_dir config output_file schedule w
           = Some (Raise e, {| w_log := log; w_writes := w_writes w |})).
Proof.
  intros Hperm. unfold get_results_from_json.
  destruct (executor_map_in_order
              (λ exp, process_experiment exp.1 exp.2 result_dir columns)
              config schedule (w_log w) Hperm) as [log ->].
  exists log.
  destruct (mapM _ config) as [rows|e] eqn:Hrows.
  - left. apply mapM_result_Forall2 in Hrows.
    destruct (rows_render py_strip py_float py_str_float fs result_dir config rows Hrows)
      as (Hall & lines & Hlines & _).
    split; [done|]. eexists.
    by rewrite (write_rows_lines py_str_float rows lines Hlines).
  - right. apply mapM_result_first_raise in Hrows
      as (pre & [exp_name details] & post & -> & Hpre & Hraise).
    exists pre, (exp_name, details), post, e. split_and!; [done | | | done].
    + eapply Forall_impl; [exact Hpre|]. intros [n d] [row Hrow].
      unfold outcome_of in Hrow. cbn [fst snd] in Hrow.
      destruct (process_experiment n d result_dir columns) as [[row' l]|] eqn:Hrun;
        [|done].
      by eapply process_experiment_has_model.
    + unfold outcome_of in Hraise. cbn [fst snd] in *.
      destruct (process_experiment exp_name details result_dir columns)
        as [[row' l]|e'] eqn:Hrun; [done|]. by injection Hraise as ->.
Qed.

(** X6. Called on its own, [get_results_from_json] checks nothing: at the
    first experiment, in the order of the configuration, whose model is
    missing or is not a string, it raises, [KeyError] for a missing model
    and [TypeError] otherwise, whatever the workers completed first and
    whatever the later records are; it then writes nothing. *)
Theorem first_failure_decides
    result_dir pre exp post output_file schedule w e :
  schedule ≡ₚ seq 0 (length (pre ++ exp :: post)) →
  Forall has_model pre →
  process_experiment exp.1 exp.2 result_dir columns = Raise e →
  (exp.2 !! "model_name" = None ∧ e = KeyError "model_name"
   ∨ is_Some (exp.2 !! "model_name") ∧ ¬ has_model exp ∧ e = TypeError)
  ∧ ∃ log,
      get_results_from_json result_dir (pre ++ exp :: post) output_file schedule w
      = Some (Raise e, {| w_log := log; w_writes := w_writes w |}).
Proof.
  intros Hperm Hpre Hraise. split.
  { destruct exp as [exp_name details].
    by apply (process_experiment_raises _ _ result_dir columns). }
  unfold get_results_from_json.
  destruct (executor_map_in_order
              (λ exp, process_experiment exp.1 exp.2 result_dir columns)
              (pre ++ exp :: post) schedule (w_log w) Hperm) as [log ->].
  exists log. rewrite (mapM_result_raise_at _ pre exp post e); [done | |].
  - eapply Forall_impl; [exact Hpre|]. intros [n d] Hmodel.
    by apply outcome_of_has_model.
  - unfold outcome_of. by rewrite Hraise.
Qed.

Lemma validate_config_raises_value_error config e :
  validate_config config = Raise e → ∃ msg, e = ValueError msg.
Proof.
  intros Hraise.
  destruct (validate_config_raise py_strip py_float config e Hraise)
    as (pre & exp_name & d & post & _ & _ & Hcheck).
  destruct (check_keys_raise exp_name d required_keys e Hcheck)
    as (before & key & after & _ & _ & _ & ->).
  by eexists.
Qed.

Lemma validate_config_Forall config :
  validate_config config = Ok tt ↔ Forall (λ exp, complete exp.2) config.
Proof.
  induction config as [|[exp_name d] config IH].
  - split; [constructor | done].
  - rewrite validate_config_cons, Forall_cons, <- IH. cbn [snd].
    rewrite <- (check_keys_complete py_strip py_float exp_name d).
    destruct (check_keys exp_name d required_keys) as [[]|e].
    + split; [by intros -> | by intros [_ ->]].
    + split; [done | by intros [? _]].
Qed.

(** X7. The program ends in one of three ways, whatever the order in
    which the workers complete: with status 1 and no write, when the
    validation fails; with status 0 and one write to the output file, when
    it passes and every model is a string; with an uncaught [TypeError] and
    no write, when it passes and some model is not a string. The
    validation keeps [KeyError] away. *)
Theorem main_outcomes result_dir config output_file schedule w :
  schedule ≡ₚ seq 0 (length config) →
  ∃ t w',
    main result_dir config output_file schedule w = Some (t, w')
    ∧ ((t = Exited 1
        ∧ (∃ e, validate_config config = Raise e)
        ∧ w_writes w' = w_writes w)
       ∨ (t = Exited 0
          ∧ validate_config config = Ok tt
          ∧ Forall has_model config
          ∧ ∃ text, w_writes w' = w_writes w ++ [(output_file, text)])
       ∨ (t = Uncaught TypeError
          ∧ validate_config config = Ok tt
          ∧ ¬ Forall has_model config
          ∧ w_writes w' = w_writes w)).
Proof.
  intros Hperm. unfold main.
  destruct (validate_config config) as [[]|e] eqn:Hvalid.
  - destruct (get_results_cases result_dir config output_file schedule w Hperm)
      as [log [(Hall & text & ->) | (pre & exp & post & e & -> & Hpre & Hraise & ->)]].
    + eexists _, _. split; [done|]. right. left. split_and!; eauto.
    + eexists _, _. split; [done|]. right. right.
      destruct exp as [exp_name details].
      apply process_experiment_raises in Hraise
        as [[Hnone ->] | (_ & Hnot & ->)].
      * apply validate_config_Forall in Hvalid.
        apply Forall_app in Hvalid as [_ [Hcomplete _]%Forall_cons].
        unfold complete, required_keys in Hcomplete. cbn [snd] in Hcomplete, Hnone.
        apply Forall_forall with (x := "model_name") in Hcomplete;
          [|by_evaluation].
        rewrite Hnone in Hcomplete. by destruct Hcomplete.
      * split_and!; [done | done | | done].
        intros [_ [? _]%Forall_cons]%Forall_app. done.
  - destruct (validate_config_raises_value_error config e Hvalid) as [msg ->].
    eexists _, _. split; [done|]. left. eauto.
Qed.

(** *** The validation of a concatenation *)

(** X8. Validating a configuration made of two parts is validating the
    first and then the second: the error is that of the first part when
    it has one, that of the second otherwise. *)
Theorem validate_config_app config1 config2 :
  validate_config (config1 ++ config2)
  = match validate_config config1 with
    | Ok _ => validate_config config2
    | Raise e => Raise e
    end.
Proof.
  induction config1 as [|[exp_name d] config1 IH]; [done|].
  rewrite <- app_comm_cons, !validate_config_cons.
  by destruct (check_keys exp_name d required_keys).
Qed.

(** *** The error counter and the entries *)

Lemma sum_list_zero (l : list nat) : sum_list l = 0 ↔ Forall (λ n, n = 0) l.
Proof.
  induction l as [|n l IH]; cbn.
  - split; [constructor | done].
  - rewrite Forall_cons, <- IH. unfold id. lia.
Qed.

Lemma filter_nil_Forall {A} (p : A → bool) (l : list A) :
  List.filter p l = [] ↔ Forall (λ x, p x = false) l.
Proof.
  induction l as [|x l IH]; cbn.
  - split; [constructor | done].
  - rewrite Forall_cons, <- IH. destruct (p x); split; try done.
    + by intros [? _].
    + by intros [_ ?].
Qed.

Lemma domain_errors_zero dp :
  isdir fs dp = true →
  domain_errors dp = 0
  ↔ ∀ task, task ∈ listdir fs dp →
      isfile fs (result_file dp task) = true
      ∧ is_Some (parse_result (result_file dp task)).
Proof.
  intros Hdir. unfold domain_errors, unparsable_tasks, missing_tasks. rewrite Hdir.
  rewrite Nat.eq_add_0, !length_zero_iff_nil, !filter_nil_Forall, !Forall_forall.
  split.
  - intros [Hparse Hfile] task Htask.
    specialize (Hparse task Htask). specialize (Hfile task Htask).
    apply negb_false_iff in Hfile. rewrite Hfile in Hparse. cbn in Hparse.
    split; [done|]. apply bool_decide_eq_false in Hparse.
    by apply not_eq_None_Some.
  - intros Hall. split; intros task Htask; destruct (Hall task Htask) as [-> [v Hv]].
    + rewrite Hv. by cbn.
    + done.
Qed.

(** X9. The error count of an experiment is 0 exactly when every entry of
    every domain directory that exists has a [result.txt] that parses as a
    float; the aggregates play no part in it. *)
Theorem no_error_iff_all_parsed exp_name details result_dir cols model :
  details !! "model_name" = Some (PyStr model) →
  ∃ row log,
    process_experiment exp_name details result_dir cols = Ok (row, log)
    ∧ (row !! "*errors*" = Some (PyInt 0)
       ↔ ∀ domain task,
           domain ∈ domains →
           isdir fs (domain_dir result_dir exp_name model domain) = true →
           task ∈ listdir fs (domain_dir result_dir exp_name model domain) →
           isfile fs (result_file (domain_dir result_dir exp_name model domain) task)
           = true
           ∧ is_Some (parse_result
                        (result_file (domain_dir result_dir exp_name model domain)
                                     task))).
Proof.
  intros Hmodel.
  destruct (process_experiment_spec py_strip py_float fs
              exp_name details result_dir cols model Hmodel)
    as (row & log & Hrun & _ & Herrors & _).
  exists row, log. split; [done|]. rewrite Herrors.
  transitivity (sum_list (map
      (λ d, domain_errors (os_path_join (results_path_of result_dir exp_name model) [d]))
      domains) = 0).
  { split; [intros [= H]; apply Nat2Z.inj; exact H | by intros ->]. }
  rewrite sum_list_zero, Forall_fmap, Forall_forall. unfold domain_dir.
  split.
  - intros Hzero domain task Hdomain Hdir Htask.
    specialize (Hzero domain Hdomain). unfold compose in Hzero.
    by apply (proj1 (domain_errors_zero _ Hdir) Hzero).
  - intros Hall domain Hdomain. unfold compose.
    destruct (isdir fs (os_path_join (results_path_of result_dir exp_name model)
                                     [domain])) eqn:Hdir.
    + apply domain_errors_zero; [done|]. intros task. by apply Hall.
    + by apply domain_errors_no_dir.
Qed.

(** *** The log and the order of completion *)

Lemma fold_run_job_log {A B} (f : A → result (B * list log_record)) xs schedule :
  ∀ (futures : list (future B)) log,
    (fold_left (run_job f xs) schedule (futures, log)).2
    = log ++ schedule_log f xs schedule.
Proof.
  unfold schedule_log.
  induction schedule as [|j schedule IH]; intros futures log.
  - cbn. by rewrite app_nil_r.
  - cbn [fold_left]. rewrite bind_cons. unfold run_job at 2.
    destruct (xs !! j) as [x|]; [destruct (f x) as [[b l]|e]|];
      rewrite IH; by rewrite ?app_nil_r, <- ?app_assoc.
Qed.

Lemma executor_map_log {A B} (f : A → result (B * list log_record))
    xs schedule log :
  schedule ≡ₚ seq 0 (length xs) →
  executor_map f xs schedule log
  = (Some (mapM (outcome_of f) xs), log ++ schedule_log f xs schedule).
Proof.
  intros Hperm.
  destruct (executor_map_in_order f xs schedule log Hperm) as [log' Heq].
  rewrite Heq. f_equal.
  pose proof (fold_run_job_log f xs schedule (replicate (length xs) None) log) as Hlog.
  unfold executor_map in Heq.
  destruct (fold_left (run_job f xs) schedule (replicate (length xs) None, log))
    as [futures l].
  injection Heq as _ <-. exact Hlog.
Qed.

(** X10. When every model is a string, the order in which the workers
    complete the experiments changes neither the outcome nor the text
    written, only the order of the records in the log: two orders of
    completion give logs that are permutations of each other. *)
Theorem completion_order_permutes_log
    result_dir config output_file schedule1 schedule2 w :
  schedule1 ≡ₚ seq 0 (length config) →
  schedule2 ≡ₚ seq 0 (length config) →
  Forall has_model config →
  ∃ text log1 log2,
    get_results_from_json result_dir config output_file schedule1 w
    = Some (Ok tt, {| w_log := log1;
                      w_writes := w_writes w ++ [(output_file, text)] |})
    ∧ get_results_from_json result_dir config output_file schedule2 w
      = Some (Ok tt, {| w_log := log2;
                        w_writes := w_writes w ++ [(output_file, text)] |})
    ∧ log1 ≡ₚ log2.
Proof.
  intros Hperm1 Hperm2 Hall. unfold get_results_from_json.
  rewrite !executor_map_log by done.
  destruct (mapM_result_total
              (outcome_of (λ exp, process_experiment exp.1 exp.2 result_dir columns))
              config) as (rows & Hrows & _).
  { eapply Forall_impl; [exact Hall|]. intros [n d] Hmodel.
    by apply outcome_of_has_model. }
  rewrite Hrows. apply mapM_result_Forall2 in Hrows.
  destruct (rows_render py_strip py_float py_str_float fs result_dir config rows Hrows)
    as (_ & lines & Hlines & _).
  rewrite (write_rows_lines py_str_float rows lines Hlines).
  eexists _, _, _. split_and!; [done | done |].
  unfold schedule_log. by rewrite Hperm1, Hperm2.
Qed.

(** *** The paths that are read *)

Lemma string_app_empty (a b : string) : a +:+ b = "" → b = "".
Proof. by destruct a. Qed.

Lemma endswith_sep_app (a b : string) :
  b ≠ "" → endswith_sep (a +:+ b) = endswith_sep b.
Proof.
  intros Hb. induction a as [|c a IH]; [done|].
  change (String c a +:+ b) with (String c (a +:+ b)).
  cbn [endswith_sep]. destruct (a +:+ b) eqn:Hab; [|done].
  by apply string_app_empty in Hab.
Qed.

Lemma join_step_plain path b :
  path ≠ "" → endswith_sep path = false → plain b →
  join_step path b = path +:+ "/" +:+ b
  ∧ path +:+ "/" +:+ b ≠ ""
  ∧ endswith_sep (path +:+ "/" +:+ b) = false.
Proof.
  intros Hpath Hend (Hb & Hstart & Hbend). split_and!.
  - unfold join_step. rewrite Hstart, Hend.
    by rewrite bool_decide_eq_false_2.
  - intros Hempty%string_app_empty. done.
  - rewrite endswith_sep_app by done.
    change ("/" +:+ b) with (String sep b). cbn [endswith_sep].
    by destruct b.
Qed.

Lemma plain_domains : Forall plain domains.
Proof. repeat constructor; done. Qed.

(** X11. With a results root that is not empty and does not end with a
    separator, and a name, a model and an entry that are not empty and have
    no separator at either end, the file that is read for an entry of a
    domain is
    [<result_dir>/<exp_name>/pyautogui/a11y_tree/<model>/0/<domain>/<entry>/result.txt]. *)
Theorem data_path_layout result_dir exp_name model domain task :
  result_dir ≠ "" →
  endswith_sep result_dir = false →
  plain exp_name →
  plain model →
  domain ∈ domains →
  plain task →
  result_file (domain_dir result_dir exp_name model domain) task
  = result_dir +:+ "/" +:+ exp_name +:+ "/pyautogui/a11y_tree/" +:+ model
    +:+ "/0/" +:+ domain +:+ "/" +:+ task +:+ "/result.txt".
Proof.
  intros Hroot Hend Hname Hmodel Hdomain Htask.
  assert (Hplain : plain domain).
  { pose proof plain_domains as Hall. rewrite Forall_forall in Hall. by apply Hall. }
  unfold result_file, domain_dir, results_path_of, os_path_join.
  cbn [fold_left].
  destruct (join_step_plain result_dir exp_name Hroot Hend Hname) as (-> & H1 & H1').
  destruct (join_step_plain _ "pyautogui" H1 H1') as (-> & H2 & H2'); [done|].
  destruct (join_step_plain _ "a11y_tree" H2 H2') as (-> & H3 & H3'); [done|].
  destruct (join_step_plain _ model H3 H3' Hmodel) as (-> & H4 & H4').
  destruct (join_step_plain _ "0" H4 H4') as (-> & H5 & H5'); [done|].
  destruct (join_step_plain _ domain H5 H5' Hplain) as (-> & H6 & H6').
  destruct (join_step_plain _ task H6 H6' Htask) as (-> & H7 & H7').
  destruct (join_step_plain _ "result.txt" H7 H7') as (-> & _ & _); [done|].
  by rewrite !string_app_assoc.
Qed.

(** X12. A name that starts with a separator makes the path of the
    results forget the results root, and a model that starts with one
    makes it forget the root and the name as well: [os.path.join] restarts
    at an absolute component. *)
Theorem absolute_component_discards_prefix result_dir exp_name model :
  (startswith_sep exp_name = true →
   ∀ result_dir',
     results_path_of result_dir exp_name model
     = results_path_of result_dir' exp_name model)
  ∧ (startswith_sep model = true →
     ∀ result_dir' exp_name',
       results_path_of result_dir exp_name model
       = results_path_of result_dir' exp_name' model).
Proof.
  unfold results_path_of, os_path_join. cbn [fold_left].
  split; intros Habs; intros.
  - assert (Hjoin : ∀ path, join_step path exp_name = exp_name)
      by (intros; unfold join_step; by rewrite Habs).
    by rewrite !Hjoin.
  - assert (Hjoin : ∀ path, join_step path model = model)
      by (intros; unfold join_step; by rewrite Habs).
    by rewrite !Hjoin.
Qed.

End More.

(** *** Two file systems *)

Section Frame.

Variable py_strip : string → string.
Variable py_float : string → option float.

Lemma omap_ext_in {A B} (f g : A → option B) (l : list A) :
  (∀ x, x ∈ l → f x = g x) → omap f l = omap g l.
Proof.
  induction l as [|x l IH]; intros Hfg; [done|].
  cbn [omap list_omap]. rewrite Hfg by left.
  rewrite IH by (intros; apply Hfg; by right). done.
Qed.

Lemma expected_cell_same fs1 fs2 dp :
  same_domain fs1 fs2 dp →
  expected_cell py_strip py_float fs1 dp = expected_cell py_strip py_float fs2 dp.
Proof.
  intros [Hdir Hsame]. unfold expected_cell. rewrite <- Hdir.
  destruct (isdir fs1 dp); [|done].
  destruct (Hsame eq_refl) as [Hlist Htasks].
  assert (Hvalues : valid_values py_strip py_float fs1 dp
                    = valid_values py_strip py_float fs2 dp).
  { unfold valid_values. rewrite <- Hlist. apply omap_ext_in.
    intros task Htask. destruct (Htasks task Htask) as [Hfile Hread].
    unfold valid_value, parse_result. rewrite <- Hfile.
    destruct (isfile fs1 (result_file dp task)); [|done].
    by rewrite <- Hread. }
  by rewrite Hvalues.
Qed.

(** X13. The aggregate of a domain comes from the directory of that domain
    alone: on two file systems that show the same directory for it, with
    the same entries and the same [result.txt] below each, whatever else
    differs, the rows have the same cell for the domain. *)
Theorem aggregate_is_local
    fs1 fs2 exp_name details result_dir cols model domain :
  details !! "model_name" = Some (PyStr model) →
  domain ∈ domains →
  same_domain fs1 fs2 (domain_dir result_dir exp_name model domain) →
  cell (process_experiment py_strip py_float fs1 exp_name details result_dir cols)
       domain
  = cell (process_experiment py_strip py_float fs2 exp_name details result_dir cols)
         domain.
Proof.
  intros Hmodel Hdomain Hsame.
  destruct (process_experiment_spec py_strip py_float fs1
              exp_name details result_dir cols model Hmodel)
    as (row1 & log1 & -> & Hcells1 & _).
  destruct (process_experiment_spec py_strip py_float fs2
              exp_name details result_dir cols model Hmodel)
    as (row2 & log2 & -> & Hcells2 & _).
  cbn [cell]. rewrite Hcells1, Hcells2 by done.
  f_equal. by apply expected_cell_same.
Qed.

End Frame.

(** *** The further properties on the sample trees *)

Lemma log_accounts_for_errors_witness :
  ∃ row log,
    Sample.process "expA" Sample.expA "results" columns = Ok (row, log)
    ∧ row !! "*errors*" = Some (PyInt (Z.of_nat (length log)))
    ∧ length log = 3.
Proof.
  destruct (log_accounts_for_errors Sample.strip Sample.float_of Sample.fs
              "expA" Sample.expA "results" columns "gpt-4")
    as (row & log & Hrun & Herrors & _); [reflexivity|].
  exists row, log. split_and!; [exact Hrun | exact Herrors |].
  assert (Hlog : cell (Sample.process "expA" Sample.expA "results" columns) "*errors*"
                 = Some (PyInt 3)) by (by vm_compute).
  unfold Sample.process in Hlog. rewrite Hrun in Hlog. cbn [cell] in Hlog.
  rewrite Herrors in Hlog. injection Hlog as Hlog. by apply Nat2Z.inj.
Defined.

Lemma no_directory_is_silent_witness :
  ∃ row,
    Sample.process "expB" Sample.expB "results" columns = Ok (row, [])
    ∧ row !! "*errors*" = Some (PyInt 0)
    ∧ row !! "chrome" = Some PyNone.
Proof.
  destruct (no_directory_is_silent Sample.strip Sample.float_of Sample.fs
              "expB" Sample.expB "results" columns "phi3")
    as (row & Hrun & Herrors & Hcells).
  - reflexivity.
  - intros domain Hdomain. each_domain Hdomain; by vm_compute.
  - exists row. split_and!; [exact Hrun | exact Herrors |].
    apply Hcells. by_evaluation.
Defined.

Lemma only_three_fields_are_read_witness :
  Sample.process "expA" (delete "exp_name" Sample.expA) "results" columns
  = Sample.process "expA" Sample.expA "results" columns.
Proof.
  apply (only_three_fields_are_read Sample.strip Sample.float_of Sample.fs);
    reflexivity.
Defined.

Lemma derived_cells_witness :
  ∃ row log,
    Sample.process "expA" Sample2.null_origin "results" columns = Ok (row, log)
    ∧ row !! "uia_value" = Some (PyStr "✅")
    ∧ render_cell Sample.str_of_float row "som_origin" = Ok "".
Proof.
  destruct (derived_cells Sample.strip Sample.float_of Sample.str_of_float Sample.fs
              "expA" Sample2.null_origin "results" columns "gpt-4")
    as (row & log & Hrun & _ & Huia & _ & Horigin & _); [reflexivity|].
  exists row, log. split_and!; [exact Hrun | by apply Huia | exact Horigin].
Defined.

Lemma line_of_experiment_witness :
  ∃ row log,
    Sample.process "expA" Sample.expA "results" columns = Ok (row, log)
    ∧ render_row Sample.str_of_float row
      = Ok ("| expA | ✅ | gpt | gpt-4 | 7500.0 |  |  |  | 75.0 |  |  | 100.0 |  |  |  | 200.0 | 3 |"
            +:+ newline).
Proof.
  destruct (line_of_experiment Sample.strip Sample.float_of Sample.str_of_float
              Sample.fs "expA" Sample.expA "results" "gpt-4")
    as (row & log & Hrun & Hline & _); [reflexivity|].
  exists row, log. split; [exact Hrun|]. rewrite Hline. by vm_compute.
Defined.

Lemma first_failure_decides_witness :
  ∃ log,
    get_results_from_json Sample.strip Sample.float_of Sample.str_of_float Sample.fs
      "results" Sample2.keyless_config "out.md" [2; 0; 1] Sample.world0
    = Some (Raise (KeyError "model_name"), {| w_log := log; w_writes := [] |}).
Proof.
  apply (first_failure_decides Sample.strip Sample.float_of Sample.str_of_float
           Sample.fs "results" [("expA", Sample.expA)] ("expD", Sample.no_model)
           [("expN", Sample2.expN)] "out.md" [2; 0; 1] Sample.world0
           (KeyError "model_name")).
  - change ([2; 0; 1] ≡ₚ [0; 1; 2]).
    rewrite (perm_swap 0 2), (perm_swap 1 2). reflexivity.
  - repeat constructor. by exists "gpt-4".
  - by vm_compute.
Defined.

Lemma main_outcomes_witness :
  ∃ w',
    main Sample.strip Sample.float_of Sample.str_of_float Sample.fs
         "results" Sample2.numeric_config "out.md" [2; 0; 1] Sample.world0
    = Some (Uncaught TypeError, w')
    ∧ w_writes w' = [].
Proof.
  destruct (main_outcomes Sample.strip Sample.float_of Sample.str_of_float Sample.fs
              "results" Sample2.numeric_config "out.md" [2; 0; 1] Sample.world0)
    as (t & w' & Hmain
        & [(_ & [e He] & _) | [(_ & _ & Hall & _) | (-> & _ & _ & Hwrites)]]).
  - change (seq 0 (length Sample2.numeric_config)) with [0; 1; 2].
    rewrite (perm_swap 0 2), (perm_swap 1 2). reflexivity.
  - by vm_compute in He.
  - apply Forall_cons in Hall as [_ [[model Hmodel] _]%Forall_cons].
    by vm_compute in Hmodel.
  - exists w'. split; [exact Hmain | exact Hwrites].
Defined.

Lemma no_error_iff_all_parsed_witness :
  ∃ row log,
    Sample.process "expA" Sample.expA "results" columns = Ok (row, log)
    ∧ row !! "*errors*" ≠ Some (PyInt 0).
Proof.
  destruct (no_error_iff_all_parsed Sample.strip Sample.float_of Sample.fs
              "expA" Sample.expA "results" columns "gpt-4")
    as (row & log & Hrun & Hiff); [reflexivity|].
  exists row, log. split; [exact Hrun|].
  intros Hzero. apply Hiff with (domain := "msedge") (task := "x") in Hzero
    as [_ [v Hv]].
  - by vm_compute in Hv.
  - by_evaluation.
  - by vm_compute.
  - apply (bool_decide_unpack _). by vm_compute.
Defined.

Lemma completion_order_permutes_log_witness :
  ∃ text log1 log2,
    get_results_from_json Sample.strip Sample.float_of Sample.str_of_float Sample.fs
      "results" Sample.config "out.md" [1; 0] Sample.world0
    = Some (Ok tt, {| w_log := log1; w_writes := [("out.md", text)] |})
    ∧ get_results_from_json Sample.strip Sample.float_of Sample.str_of_float Sample.fs
        "results" Sample.config "out.md" [0; 1] Sample.world0
      = Some (Ok tt, {| w_log := log2; w_writes := [("out.md", text)] |})
    ∧ log1 ≡ₚ log2.
Proof.
  apply (completion_order_permutes_log Sample.strip Sample.float_of
           Sample.str_of_float Sample.fs
           "results" Sample.config "out.md" [1; 0] [0; 1] Sample.world0).
  - apply perm_swap.
  - done.
  - repeat constructor; eexists; reflexivity.
Defined.

Lemma data_path_layout_witness :
  result_file (domain_dir "results" "expA" "gpt-4" "chrome") "t1"
  = "results/expA/pyautogui/a11y_tree/gpt-4/0/chrome/t1/result.txt".
Proof.
  rewrite (data_path_layout "results" "expA" "gpt-4" "chrome" "t1");
    [reflexivity | done | done | by repeat split | by repeat split
     | by_evaluation | by repeat split].
Defined.

Lemma absolute_component_discards_prefix_witness :
  results_path_of "results" "/etc" "gpt-4" = results_path_of "elsewhere" "/etc" "gpt-4"
  ∧ results_path_of "results" "expA" "/srv/model" = results_path_of "" "" "/srv/model".
Proof.
  split.
  - by apply (proj1 (absolute_component_discards_prefix "results" "/etc" "gpt-4")).
  - by apply (proj2 (absolute_component_discards_prefix "results" "expA" "/srv/model")).
Defined.

Lemma aggregate_is_local_witness :
  cell (process_experiment Sample.strip Sample.float_of Sample.fs
          "expA" Sample.expA "results" columns) "chrome"
  = cell (process_experiment Sample.strip Sample.float_of Sample2.fs
            "expA" Sample.expA "results" columns) "chrome".
Proof.
  apply (aggregate_is_local Sample.strip Sample.float_of Sample.fs Sample2.fs
           "expA" Sample.expA "results" columns "gpt-4" "chrome").
  - reflexivity.
  - by_evaluation.
  - split; [by vm_compute|]. intros _. split; [by vm_compute|].
    intros task Htask.
    assert (Hentries : listdir Sample.fs (domain_dir "results" "expA" "gpt-4" "chrome")
                       = ["t1"; "t2"]) by (by vm_compute).
    rewrite Hentries in Htask.
    each_domain Htask; (split; [by vm_compute | intros _; by vm_compute]).
Defined.
